(** * AmpAndGrafanaStack: a shallow embedding of lib/amp-and-grafana-stack.ts

    The stack is a single CDK construct whose constructor runs six
    resource-construction steps.  The embedding keeps the shape of the
    TypeScript source: the private methods of the class are functions in a
    small state-and-error monad over the stack object, the CDK classes the
    methods call are modelled in the modules [Js], [Cdk], [Ec2], [Eks], [Iam],
    [Aps] and [Grafana], and the constructor is the list of its statements.

    The library models follow aws-cdk-lib where the stack relies on it: what
    [new eks.Cluster] and [addNodegroupCapacity] create besides the cluster
    (roles, the default capacity, the aws-auth mappings of the node roles),
    the exception of [selectSubnets] on an empty subnet group, and the zones
    of a stack. *)

From Stdlib Require Import String Ascii List Bool Arith Lia DecimalString.
Import ListNotations.
Open Scope string_scope.
Set Warnings "-register-all".

(* ------------------------------------------------------------------ *)
(** ** Exceptions *)

Inductive Error : Type :=
| DuplicateConstruct (path : string)
| UndefinedField (field : string)
| NoSubnetGroups (subnetType : string)
| InvalidCapacity (desired minimum maximum : nat).

Inductive Result (A : Type) : Type :=
| Ok (a : A)
| Err (e : Error).

Arguments Ok {A} a.
Arguments Err {A} e.

(* ------------------------------------------------------------------ *)
(** ** JavaScript strings and arrays *)

Module Js.

(** [s.startsWith(p)] *)
Fixpoint startsWith (p s : string) : bool :=
  match p, s with
  | EmptyString, _ => true
  | String a p', String b s' => Ascii.eqb a b && startsWith p' s'
  | String _ _, EmptyString => false
  end.

(** Scanning loop of [String.prototype.split] for a non-empty separator:
    [skip] counts the characters of a matched separator still to be
    dropped, [cur] is the segment read so far. *)
Fixpoint split_from (sep : string) (skip : nat) (cur s : string) : list string :=
  match s with
  | EmptyString => [cur]
  | String c s' =>
      match skip with
      | S k => split_from sep k cur s'
      | O =>
          if startsWith sep s
          then cur :: split_from sep (String.length sep - 1) EmptyString s'
          else split_from sep 0 (cur ++ String c EmptyString) s'
      end
  end.

(** [s.split(sep)]: the empty separator cuts between all characters. *)
Definition split (sep s : string) : list string :=
  match sep with
  | EmptyString => map (fun c => String c EmptyString) (list_ascii_of_string s)
  | String _ _ => split_from sep 0 EmptyString s
  end.

(** [array[index]]: [None] stands for [undefined]. *)
Definition index {A : Type} (array : list A) (i : nat) : option A :=
  nth_error array i.

(** A string contains no occurrence of the character [c]. *)
Fixpoint lacks (c : ascii) (s : string) : bool :=
  match s with
  | EmptyString => true
  | String a s' => negb (Ascii.eqb a c) && lacks c s'
  end.

End Js.

(* ------------------------------------------------------------------ *)
(** ** CDK core: encoded strings, tokens and [Fn] *)

Module Cdk.

(** A CDK string is either resolved text or carries tokens that stand for
    deploy-time values; [StrList] is the same for [string[]]. *)
Inductive Str : Type :=
| Lit (s : string)
| Ref (logicalId : string)
| GetAtt (logicalId attr : string)
| FnSelect (index : nat) (array : StrList)
| Cat (a b : Str)
with StrList : Type :=
| Elems (l : list string)
| FnSplit (delimiter : string) (source : Str)
| FnGetAZs.

(** [Token.isUnresolved] *)
Fixpoint isUnresolved (v : Str) : bool :=
  match v with
  | Lit _ => false
  | Cat a b => isUnresolved a || isUnresolved b
  | _ => true
  end.

(** String concatenation: resolved text concatenates as text. *)
Definition cat (a b : Str) : Str :=
  match a, b with
  | Lit x, Lit y => Lit (x ++ y)
  | _, _ => Cat a b
  end.

(** Conversion of a JavaScript value inside a template literal. *)
Definition toStr (v : option Str) : Str :=
  match v with
  | Some s => s
  | None => Lit "undefined"
  end.

(** The characters of a string; a token contributes none. *)
Fixpoint chars (v : Str) : string :=
  match v with
  | Lit s => s
  | Cat a b => chars a ++ chars b
  | _ => ""
  end.

(** The text of a resolved string. *)
Definition text (v : Str) : option string :=
  if isUnresolved v then None else Some (chars v).

(** Logical ids a string refers to. *)
Fixpoint refs (v : Str) : list string :=
  match v with
  | Lit _ => []
  | Ref i => [i]
  | GetAtt i _ => [i]
  | FnSelect _ l => refsList l
  | Cat a b => (refs a ++ refs b)%list
  end
with refsList (l : StrList) : list string :=
  match l with
  | Elems _ | FnGetAZs => []
  | FnSplit _ src => refs src
  end.

Module Fn.

(** [Fn.split]: short-circuits to [source.split(delimiter)] when the
    source is not a token. *)
Definition split (delimiter : string) (source : Str) : StrList :=
  if isUnresolved source then FnSplit delimiter source
  else Elems (Js.split delimiter (chars source)).

(** [Fn.select]: [array[index]] on a resolved array, the intrinsic
    otherwise. *)
Definition select (index : nat) (array : StrList) : option Str :=
  match array with
  | Elems l => option_map Lit (Js.index l index)
  | _ => Some (FnSelect index array)
  end.

End Fn.

End Cdk.


(* ------------------------------------------------------------------ *)
(** ** Untyped object literals (the Kubernetes manifests) *)

Module Json.
Import Cdk.

Inductive t : Type :=
| JStr (s : Str)
| JArr (items : list t)
| JObj (fields : list (string * t)).

Definition str (s : string) : t := JStr (Lit s).
Definition strs (l : list string) : t := JArr (map str l).

(** [obj.key] *)
Fixpoint lookup (key : string) (fields : list (string * t)) : option t :=
  match fields with
  | [] => None
  | (k, v) :: rest => if String.eqb k key then Some v else lookup key rest
  end.

Definition get (key : string) (j : t) : option t :=
  match j with
  | JObj fields => lookup key fields
  | _ => None
  end.

Definition asText (j : t) : option string :=
  match j with
  | JStr s => text s
  | _ => None
  end.

Definition items (j : t) : list t :=
  match j with
  | JArr l => l
  | _ => []
  end.

(** The resolved strings of an array of strings. *)
Definition texts (j : t) : list string :=
  flat_map (fun x => match asText x with Some s => [s] | None => [] end) (items j).

(** Logical ids referred to anywhere in the document. *)
Fixpoint refs (j : t) : list string :=
  match j with
  | JStr s => Cdk.refs s
  | JArr l => flat_map refs l
  | JObj fs => flat_map (fun kv => refs (snd kv)) fs
  end.

End Json.

(* ------------------------------------------------------------------ *)
(** ** aws-ec2 *)

Module Ec2.
Import Cdk.

Inductive SubnetType : Type :=
| PRIVATE_ISOLATED
| PRIVATE_WITH_EGRESS
| PUBLIC.

Definition SubnetType_eqb (a b : SubnetType) : bool :=
  match a, b with
  | PRIVATE_ISOLATED, PRIVATE_ISOLATED
  | PRIVATE_WITH_EGRESS, PRIVATE_WITH_EGRESS
  | PUBLIC, PUBLIC => true
  | _, _ => false
  end.

Record Subnet : Type := {
  subnetId : Str;
  availabilityZone : Str
}.

Record SubnetConfiguration : Type := {
  cfgSubnetType : SubnetType;
  cfgName : string
}.

(** [Vpc.DEFAULT_SUBNETS]: one public and one private group. *)
Definition DEFAULT_SUBNETS : list SubnetConfiguration :=
  [ {| cfgSubnetType := PUBLIC; cfgName := "Public" |};
    {| cfgSubnetType := PRIVATE_WITH_EGRESS; cfgName := "Private" |} ].

Record VpcProps : Type := {
  maxAzs : nat;
  enableDnsHostnames : bool;
  enableDnsSupport : bool
}.

Record Vpc : Type := {
  vpcId : Str;
  availabilityZones : list Str;
  publicSubnets : list Subnet;
  privateSubnets : list Subnet;
  isolatedSubnets : list Subnet
}.

Record SubnetSelection : Type := {
  subnetType : SubnetType
}.

Record SelectedSubnets : Type := {
  subnets : list Subnet
}.

(** The value of the enum member, as it appears in messages. *)
Definition SubnetType_toString (t : SubnetType) : string :=
  match t with
  | PRIVATE_ISOLATED => "Isolated"
  | PRIVATE_WITH_EGRESS => "Private"
  | PUBLIC => "Public"
  end.

(** The subnets of one type. *)
Definition subnetsOfType (vpc : Vpc) (t : SubnetType) : list Subnet :=
  match t with
  | PRIVATE_ISOLATED => isolatedSubnets vpc
  | PRIVATE_WITH_EGRESS => privateSubnets vpc
  | PUBLIC => publicSubnets vpc
  end.

(** [vpc.selectSubnets(selection)]: the subnets of the selected type; the
    library throws when the network has no subnet of that type. *)
Definition selectSubnets (vpc : Vpc) (selection : SubnetSelection)
    : Result SelectedSubnets :=
  match subnetsOfType vpc (subnetType selection) with
  | [] => Err (NoSubnetGroups (SubnetType_toString (subnetType selection)))
  | found => Ok {| subnets := found |}
  end.

(** [vpc.selectSubnets()] without a selection: the private subnets with
    egress if there are any, else the isolated ones, else the public ones. *)
Definition defaultSubnetType (vpc : Vpc) : SubnetType :=
  match privateSubnets vpc, isolatedSubnets vpc with
  | _ :: _, _ => PRIVATE_WITH_EGRESS
  | [], _ :: _ => PRIVATE_ISOLATED
  | [], [] => PUBLIC
  end.

Definition selectDefaultSubnets (vpc : Vpc) : Result SelectedSubnets :=
  selectSubnets vpc {| subnetType := defaultSubnetType vpc |}.

(** Every subnet of the network with the tier it belongs to. *)
Definition taggedSubnets (vpc : Vpc) : list (SubnetType * Subnet) :=
  (map (pair PUBLIC) (publicSubnets vpc)
   ++ map (pair PRIVATE_WITH_EGRESS) (privateSubnets vpc)
   ++ map (pair PRIVATE_ISOLATED) (isolatedSubnets vpc))%list.

Inductive InstanceClass : Type := T3 | M5 | C5 | R5.
Inductive InstanceSize : Type := SMALL | MEDIUM | LARGE | XLARGE.

Definition InstanceClass_toString (c : InstanceClass) : string :=
  match c with T3 => "t3" | M5 => "m5" | C5 => "c5" | R5 => "r5" end.

Definition InstanceSize_toString (s : InstanceSize) : string :=
  match s with
  | SMALL => "small" | MEDIUM => "medium" | LARGE => "large" | XLARGE => "xlarge"
  end.

(** An instance type is the string [class.size]. *)
Definition InstanceType : Type := string.

(** [InstanceType.of(instanceClass, instanceSize)] *)
Definition InstanceType_of (c : InstanceClass) (s : InstanceSize) : InstanceType :=
  InstanceClass_toString c ++ "." ++ InstanceSize_toString s.

End Ec2.

(* ------------------------------------------------------------------ *)
(** ** aws-iam *)

Module Iam.
Import Cdk.

Inductive Principal : Type :=
| ServicePrincipal (service : string)
| AccountPrincipal (accountId : string)
| AccountRootPrincipal
| ArnPrincipal (arn : string)
| AnyPrincipal.

Definition Principal_eqb (p q : Principal) : bool :=
  match p, q with
  | ServicePrincipal a, ServicePrincipal b => String.eqb a b
  | AccountPrincipal a, AccountPrincipal b => String.eqb a b
  | ArnPrincipal a, ArnPrincipal b => String.eqb a b
  | AccountRootPrincipal, AccountRootPrincipal => true
  | AnyPrincipal, AnyPrincipal => true
  | _, _ => false
  end.

Record ManagedPolicy : Type := {
  managedPolicyName : string
}.

Module ManagedPolicy.
Definition fromAwsManagedPolicyName (name : string) : ManagedPolicy :=
  {| managedPolicyName := name |}.
End ManagedPolicy.

Record RoleProps : Type := {
  assumedBy : Principal;
  managedPolicies : list ManagedPolicy
}.

(** A role handle: a created role or one imported by ARN. *)
Record IRole : Type := {
  roleArn : Str
}.

Inductive Effect : Type := Allow | Deny.

Record PolicyStatement : Type := {
  effect : Effect;
  actions : list string;
  principals : list Principal
}.

(** The trust policy a role is created with: one statement that allows
    [sts:AssumeRole] to the [assumedBy] principal. *)
Definition assumeRolePolicy (props : RoleProps) : list PolicyStatement :=
  [ {| effect := Allow;
       actions := ["sts:AssumeRole"];
       principals := [assumedBy props] |} ].

(** A principal element of a statement covers principal [p]. *)
Definition covers (element p : Principal) : bool :=
  match element with
  | AnyPrincipal => true
  | _ => Principal_eqb element p
  end.

(** The document lets principal [p] perform [action]. *)
Definition allows (doc : list PolicyStatement) (action : string) (p : Principal) : bool :=
  existsb (fun st =>
             match effect st with
             | Allow => existsb (String.eqb action) (actions st)
                        && existsb (fun element => covers element p) (principals st)
             | Deny => false
             end) doc.

Definition mayAssume (props : RoleProps) (p : Principal) : bool :=
  allows (assumeRolePolicy props) "sts:AssumeRole" p.

End Iam.

(* ------------------------------------------------------------------ *)
(** ** aws-eks *)

Module Eks.
Import Cdk.

Inductive KubernetesVersion : Type := V1_28 | V1_29 | V1_30.

Inductive ClusterLoggingTypes : Type :=
| API
| AUDIT
| AUTHENTICATOR
| CONTROLLER_MANAGER
| SCHEDULER.

Inductive EndpointAccess : Type :=
| EA_PUBLIC
| EA_PRIVATE
| PUBLIC_AND_PRIVATE.

(** The properties the stack passes or could pass; [None] is a property
    left out. *)
Record ClusterProps : Type := {
  vpc : option Ec2.Vpc;
  kubectlLayer : Str;
  version : KubernetesVersion;
  vpcSubnets : list Ec2.SubnetSelection;
  clusterLogging : list ClusterLoggingTypes;
  endpointAccess : EndpointAccess;
  defaultCapacity : option nat;
  defaultCapacityInstance : option Ec2.InstanceType
}.

(** [DEFAULT_CAPACITY_COUNT] and [DEFAULT_CAPACITY_TYPE] of the library. *)
Definition DEFAULT_CAPACITY_COUNT : nat := 2.
Definition DEFAULT_CAPACITY_TYPE : Ec2.InstanceType :=
  Ec2.InstanceType_of Ec2.M5 Ec2.LARGE.

Record NodegroupOptions : Type := {
  instanceTypes : list Ec2.InstanceType;
  desiredSize : option nat;
  minSize : option nat;
  maxSize : option nat
}.

(** The scaling configuration of a node group resource. *)
Record ScalingConfig : Type := {
  scalingDesired : nat;
  scalingMin : nat;
  scalingMax : nat
}.

(** How the library fills in the sizes a node group leaves out:
    [desiredSize ?? minSize ?? 2], [maxSize ?? desired], [minSize ?? 1]. *)
Definition scaling (options : NodegroupOptions) : ScalingConfig :=
  let desired :=
    match desiredSize options, minSize options with
    | Some d, _ => d
    | None, Some m => m
    | None, None => 2
    end in
  {| scalingDesired := desired;
     scalingMin := match minSize options with Some m => m | None => 1 end;
     scalingMax := match maxSize options with Some m => m | None => desired end |}.

Record AwsAuthMapping : Type := {
  username : string;
  groups : list string
}.

(** The identity mapping every node group adds for its node role. *)
Definition nodeMapping : AwsAuthMapping :=
  {| username := "system:node:{{EC2PrivateDNSName}}";
     groups := [ "system:bootstrappers"; "system:nodes" ] |}.

(** The cluster object the stack keeps in [this.cluster]. *)
Record Cluster : Type := {
  clusterPath : string;
  clusterProps : ClusterProps;
  clusterVpc : Ec2.Vpc
}.

Definition clusterArn (c : Cluster) : Str := GetAtt (clusterPath c) "Arn".
Definition clusterName (c : Cluster) : Str := Ref (clusterPath c).

(** The subnets a cluster with these subnet selections is placed in, in a
    network; a selection without subnets throws. *)
Fixpoint placement (network : Ec2.Vpc) (selections : list Ec2.SubnetSelection)
    : Result (list Ec2.Subnet) :=
  match selections with
  | [] => Ok []
  | selection :: rest =>
      match Ec2.selectSubnets network selection with
      | Ok selected =>
          match placement network rest with
          | Ok more => Ok (Ec2.subnets selected ++ more)%list
          | Err e => Err e
          end
      | Err e => Err e
      end
  end.

End Eks.

(* ------------------------------------------------------------------ *)
(** ** aws-aps and aws-grafana (L1 constructs) *)

Module Aps.
Import Cdk.

Record CfnWorkspaceProps : Type := {
  alias : string
}.

Record AmpConfiguration : Type := { workspaceArn : Str }.
Record Destination : Type := { ampConfiguration : AmpConfiguration }.
Record ScrapeConfiguration : Type := { configurationBlob : string }.
Record EksConfiguration : Type := {
  clusterArn : Str;
  subnetIds : list Str
}.
Record Source : Type := { eksConfiguration : EksConfiguration }.

Record CfnScraperProps : Type := {
  destination : Destination;
  scrapeConfiguration : ScrapeConfiguration;
  source : Source
}.

Record CfnWorkspace : Type := { workspacePath : string }.
Definition attrArn (w : CfnWorkspace) : Str := GetAtt (workspacePath w) "Arn".

Record CfnScraper : Type := { scraperPath : string }.
Definition attrRoleArn (s : CfnScraper) : Str := GetAtt (scraperPath s) "RoleArn".

End Aps.

Module Grafana.
Import Cdk.

Record CfnWorkspaceProps : Type := {
  name : string;
  accountAccessType : string;
  authenticationProviders : list string;
  permissionType : string;
  roleArn : Str;
  pluginAdminEnabled : bool
}.

End Grafana.

(* ------------------------------------------------------------------ *)
(** ** The construct tree and the construction monad *)

Import Cdk.

(** The resources of the template the model keeps.  Route tables, gateways,
    security groups, inline policies and the kubectl provider are left
    out. *)
Inductive Resource : Type :=
| CfnVPC (props : Ec2.VpcProps)
| CfnSubnet (vpcId : Str) (type : Ec2.SubnetType) (zone : Str)
| LayerVersion
| EksCluster (props : Eks.ClusterProps) (network : Ec2.Vpc)
    (subnets : list Ec2.Subnet) (roles : list Str)
| Nodegroup (clusterName nodeRole : Str) (subnets : list Ec2.Subnet)
    (options : Eks.NodegroupOptions) (scalingConfig : Eks.ScalingConfig)
| KubernetesManifest (clusterName : Str) (manifest : list Json.t)
| AwsAuth (clusterName : Str) (roleMappings : list (Iam.IRole * Eks.AwsAuthMapping))
| ApsWorkspace (props : Aps.CfnWorkspaceProps)
| ApsScraper (props : Aps.CfnScraperProps)
| IamRole (props : Iam.RoleProps)
| ImportedRole (roleArn : Str)
| GrafanaWorkspace (props : Grafana.CfnWorkspaceProps).

(** Constructs in the order they were created, each under its path. *)
Definition Tree : Type := list (string * Resource).

(** Computations that update a state [S] and may throw. *)
Definition St (S A : Type) : Type := S -> Result (A * S).

Definition ret {S A : Type} (a : A) : St S A := fun s => Ok (a, s).

Definition bind {S A B : Type} (m : St S A) (k : A -> St S B) : St S B :=
  fun s =>
    match m s with
    | Ok (a, s') => k a s'
    | Err e => Err e
    end.

Notation "x <- m ;; k" := (bind m (fun x => k))
  (at level 61, m at next level, right associativity).
Notation "m ;;; k" := (bind m (fun _ => k))
  (at level 61, right associativity).

Definition hasPath (path : string) (t : Tree) : bool :=
  existsb (fun e => String.eqb (fst e) path) t.

(** Adding a child: a second construct under the same path throws. *)
Definition addChild (path : string) (r : Resource) : St Tree unit :=
  fun t =>
    if hasPath path t then Err (DuplicateConstruct path)
    else Ok (tt, (t ++ [(path, r)])%list).

(** The check made when a construct is created, before its children are:
    its path has to be free. *)
Definition claim (path : string) : St Tree unit :=
  fun t => if hasPath path t then Err (DuplicateConstruct path) else Ok (tt, t).

(** A computation of the library that may throw and touches no construct. *)
Definition lift {S A : Type} (r : Result A) : St S A :=
  fun s =>
    match r with
    | Ok a => Ok (a, s)
    | Err e => Err e
    end.

Fixpoint find (path : string) (t : Tree) : option Resource :=
  match t with
  | [] => None
  | (p, r) :: rest => if String.eqb p path then Some r else find path rest
  end.

(** Resources that are submitted for provisioning: a role imported by ARN
    is a construct but creates nothing. *)
Definition provisioned (r : Resource) : bool :=
  match r with
  | ImportedRole _ => false
  | _ => true
  end.

Definition resources (t : Tree) : Tree :=
  filter (fun e => provisioned (snd e)) t.

Definition paths (t : Tree) : list string := map fst t.

(* ------------------------------------------------------------------ *)
(** ** Constructors and methods of the CDK classes the stack uses *)

Definition decimal (n : nat) : string :=
  NilEmpty.string_of_uint (Nat.to_uint n).

Module Vpc.
Import Ec2.

(** [subnetId(name, i)] of the library: [`${name}Subnet${i + 1}`]. *)
Definition subnetName (name : string) (i : nat) : string :=
  name ++ "Subnet" ++ decimal (i + 1).

(** [createSubnetResources]: one subnet of the group in every zone. *)
Fixpoint createSubnetResources (vpcPath : string) (cfg : SubnetConfiguration)
    (index : nat) (zones : list Str) : St Tree (list Subnet) :=
  match zones with
  | [] => ret []
  | zone :: rest =>
      let path := vpcPath ++ "/" ++ subnetName (cfgName cfg) index in
      addChild path (CfnSubnet (Ref vpcPath) (cfgSubnetType cfg) zone) ;;;
      more <- createSubnetResources vpcPath cfg (S index) rest ;;
      ret ({| subnetId := Ref path; availabilityZone := zone |} :: more)
  end.

(** The subnets of a group are pushed on the list of their type. *)
Definition push (type : SubnetType) (created : list Subnet) (v : Vpc) : Vpc :=
  match type with
  | PUBLIC =>
      {| vpcId := vpcId v; availabilityZones := availabilityZones v;
         publicSubnets := (publicSubnets v ++ created)%list;
         privateSubnets := privateSubnets v;
         isolatedSubnets := isolatedSubnets v |}
  | PRIVATE_WITH_EGRESS =>
      {| vpcId := vpcId v; availabilityZones := availabilityZones v;
         publicSubnets := publicSubnets v;
         privateSubnets := (privateSubnets v ++ created)%list;
         isolatedSubnets := isolatedSubnets v |}
  | PRIVATE_ISOLATED =>
      {| vpcId := vpcId v; availabilityZones := availabilityZones v;
         publicSubnets := publicSubnets v;
         privateSubnets := privateSubnets v;
         isolatedSubnets := (isolatedSubnets v ++ created)%list |}
  end.

Fixpoint createSubnets (vpcPath : string) (cfgs : list SubnetConfiguration)
    (v : Vpc) : St Tree Vpc :=
  match cfgs with
  | [] => ret v
  | cfg :: rest =>
      created <- createSubnetResources vpcPath cfg 0 (availabilityZones v) ;;
      createSubnets vpcPath rest (push (cfgSubnetType cfg) created v)
  end.

(** [new ec2.Vpc(scope, id, props)] with the default subnet configuration;
    [stackZones] is [Stack.of(scope).availabilityZones]. *)
Definition new (stackZones : list Str) (id : string) (props : VpcProps) : St Tree Vpc :=
  addChild id (CfnVPC props) ;;;
  createSubnets id DEFAULT_SUBNETS
    {| vpcId := Ref id;
       availabilityZones := firstn (maxAzs props) stackZones;
       publicSubnets := []; privateSubnets := []; isolatedSubnets := [] |}.

(** The properties of [new ec2.Vpc(scope, id)] without props. *)
Definition defaults : VpcProps :=
  {| maxAzs := 3; enableDnsHostnames := true; enableDnsSupport := true |}.

End Vpc.

Module KubectlV30Layer.
Definition new (id : string) : St Tree Str :=
  addChild id LayerVersion ;;; ret (Ref id).
End KubectlV30Layer.

Module Role.
Import Iam.

Definition new (id : string) (props : RoleProps) : St Tree IRole :=
  addChild id (IamRole props) ;;; ret {| roleArn := GetAtt id "Arn" |}.

Definition fromRoleArn (id : string) (arn : Str) : St Tree IRole :=
  addChild id (ImportedRole arn) ;;; ret {| roleArn := arn |}.

End Role.

Module Cluster.
Import Eks.

(** [roleMappings.push(...)] on the AwsAuth construct stored at [path]. *)
Fixpoint pushRoleMapping (path : string) (entry : Iam.IRole * AwsAuthMapping)
    (t : Tree) : Tree :=
  match t with
  | [] => []
  | (p, r) :: rest =>
      if String.eqb p path
      then match r with
           | AwsAuth cn ms => (p, AwsAuth cn (ms ++ [entry])%list) :: rest
           | _ => (p, r) :: rest
           end
      else (p, r) :: pushRoleMapping path entry rest
  end.

(** [cluster.awsAuth.addRoleMapping(role, mapping)]: the AwsAuth construct
    is created on first use and then extended in place. *)
Definition awsAuth_addRoleMapping (c : Cluster) (role : Iam.IRole)
    (mapping : AwsAuthMapping) : St Tree unit :=
  fun t =>
    let path := clusterPath c ++ "/AwsAuth" in
    match find path t with
    | None => addChild path (AwsAuth (clusterName c) [(role, mapping)]) t
    | Some (AwsAuth _ _) => Ok (tt, pushRoleMapping path (role, mapping) t)
    | Some _ => Err (DuplicateConstruct path)
    end.

Definition managed (names : list string) : list Iam.ManagedPolicy :=
  map Iam.ManagedPolicy.fromAwsManagedPolicyName names.

(** The roles the library creates: for the nodes of a node group, for the
    cluster service, for the creation of the cluster and for the kubectl
    handler. *)
Definition nodeRoleProps : Iam.RoleProps :=
  {| Iam.assumedBy := Iam.ServicePrincipal "ec2.amazonaws.com";
     Iam.managedPolicies :=
       managed [ "AmazonEKSWorkerNodePolicy"; "AmazonEKS_CNI_Policy";
                 "AmazonEC2ContainerRegistryReadOnly" ] |}.

Definition clusterRoleProps : Iam.RoleProps :=
  {| Iam.assumedBy := Iam.ServicePrincipal "eks.amazonaws.com";
     Iam.managedPolicies := managed [ "AmazonEKSClusterPolicy" ] |}.

Definition creationRoleProps : Iam.RoleProps :=
  {| Iam.assumedBy := Iam.AccountRootPrincipal;
     Iam.managedPolicies := [] |}.

Definition kubectlHandlerRoleProps : Iam.RoleProps :=
  {| Iam.assumedBy := Iam.ServicePrincipal "lambda.amazonaws.com";
     Iam.managedPolicies :=
       managed [ "service-role/AWSLambdaBasicExecutionRole";
                 "service-role/AWSLambdaVPCAccessExecutionRole";
                 "AmazonEC2ContainerRegistryReadOnly" ] |}.

(** A node group whose desired size is above its maximum or below its
    minimum is refused. *)
Definition checkSizes (sizes : ScalingConfig) : St Tree unit :=
  fun t =>
    if (scalingMax sizes <? scalingDesired sizes)%nat
       || (scalingDesired sizes <? scalingMin sizes)%nat
    then Err (InvalidCapacity (scalingDesired sizes) (scalingMin sizes)
                              (scalingMax sizes))
    else Ok (tt, t).

(** [cluster.addNodegroupCapacity(id, options)], that is
    [new Nodegroup(cluster, `Nodegroup${id}`, options)]: the node role, the
    node group in the default subnets of the cluster's network, and the node
    role's entry in aws-auth. *)
Definition addNodegroupCapacity (c : Cluster) (id : string)
    (options : NodegroupOptions) : St Tree unit :=
  let path := clusterPath c ++ "/Nodegroup" ++ id in
  claim path ;;;
  checkSizes (scaling options) ;;;
  role <- Role.new (path ++ "/NodeGroupRole") nodeRoleProps ;;
  selected <- lift (Ec2.selectDefaultSubnets (clusterVpc c)) ;;
  addChild path (Nodegroup (clusterName c) (Iam.roleArn role)
                           (Ec2.subnets selected) options (scaling options)) ;;;
  awsAuth_addRoleMapping c role nodeMapping.

(** The capacity [new eks.Cluster] adds by itself unless [defaultCapacity]
    is 0: a node group of [defaultCapacity ?? 2] instances at least, of type
    [defaultCapacityInstance ?? m5.large]. *)
Definition addDefaultCapacity (c : Cluster) : St Tree unit :=
  let count :=
    match defaultCapacity (clusterProps c) with
    | Some n => n
    | None => DEFAULT_CAPACITY_COUNT
    end in
  let instance :=
    match defaultCapacityInstance (clusterProps c) with
    | Some i => i
    | None => DEFAULT_CAPACITY_TYPE
    end in
  match count with
  | O => ret tt
  | S _ =>
      addNodegroupCapacity c "DefaultCapacity"
        {| instanceTypes := [ instance ];
           desiredSize := None;
           minSize := Some count;
           maxSize := None |}
  end.

(** [new eks.Cluster(scope, id, props)].  Without a [vpc] the cluster gets a
    network of its own; selecting its subnets throws when a selected group
    is empty; [stackZones] is [Stack.of(scope).availabilityZones].  The
    cluster resource is kept under the path of the construct. *)
Definition new (stackZones : list Str) (id : string) (props : ClusterProps)
    : St Tree Cluster :=
  claim id ;;;
  network <- match vpc props with
             | Some v => ret v
             | None => Vpc.new stackZones (id ++ "/DefaultVpc") Vpc.defaults
             end ;;
  role <- Role.new (id ++ "/Role") clusterRoleProps ;;
  subnets <- lift (placement network (vpcSubnets props)) ;;
  creationRole <- Role.new (id ++ "/Resource/CreationRole") creationRoleProps ;;
  addChild id (EksCluster props network subnets
                 [ Iam.roleArn role; Iam.roleArn creationRole ]) ;;;
  Role.new (id ++ "/KubectlHandlerRole") kubectlHandlerRoleProps ;;;
  let c := {| clusterPath := id; clusterProps := props; clusterVpc := network |} in
  addDefaultCapacity c ;;;
  ret c.

Definition addManifest (c : Cluster) (id : string) (manifest : Json.t) : St Tree unit :=
  addChild (clusterPath c ++ "/manifest-" ++ id)
           (KubernetesManifest (clusterName c) [manifest]).

End Cluster.

Module CfnWorkspace.
Definition new (id : string) (props : Aps.CfnWorkspaceProps) : St Tree Aps.CfnWorkspace :=
  addChild id (ApsWorkspace props) ;;; ret {| Aps.workspacePath := id |}.
End CfnWorkspace.

Module CfnScraper.
Definition new (id : string) (props : Aps.CfnScraperProps) : St Tree Aps.CfnScraper :=
  addChild id (ApsScraper props) ;;; ret {| Aps.scraperPath := id |}.
End CfnScraper.

Module GrafanaWorkspace.
Definition new (id : string) (props : Grafana.CfnWorkspaceProps) : St Tree unit :=
  addChild id (GrafanaWorkspace props).
End GrafanaWorkspace.

(** Logical ids a resource definition refers to or waits for: the resources
    that have to exist before it can be created.  The cluster waits for the
    network and all its subnets to be connected, and for its roles. *)
Definition deps (r : Resource) : list string :=
  match r with
  | CfnVPC _ => []
  | CfnSubnet vpcId _ zone => refs vpcId ++ refs zone
  | LayerVersion => []
  | EksCluster _ network _ roles =>
      refs (Ec2.vpcId network)
      ++ flat_map (fun s => refs (Ec2.subnetId (snd s))) (Ec2.taggedSubnets network)
      ++ flat_map refs roles
  | Nodegroup clusterName nodeRole subnets _ _ =>
      refs clusterName ++ refs nodeRole
      ++ flat_map (fun s => refs (Ec2.subnetId s)) subnets
  | KubernetesManifest clusterName manifest =>
      refs clusterName ++ flat_map Json.refs manifest
  | AwsAuth clusterName roleMappings =>
      refs clusterName ++ flat_map (fun rm => refs (Iam.roleArn (fst rm))) roleMappings
  | ApsWorkspace _ => []
  | ApsScraper props =>
      refs (Aps.workspaceArn (Aps.ampConfiguration (Aps.destination props)))
      ++ refs (Aps.clusterArn (Aps.eksConfiguration (Aps.source props)))
      ++ flat_map refs (Aps.subnetIds (Aps.eksConfiguration (Aps.source props)))
  | IamRole _ => []
  | ImportedRole arn => refs arn
  | GrafanaWorkspace props => refs (Grafana.roleArn props)
  end%list.

(* ------------------------------------------------------------------ *)
(** ** The stack class *)

Record Environment : Type := {
  account : string;
  region : string
}.

Record StackProps : Type := {
  env : option Environment
}.

(** The app a stack is created in, as far as the stack reads it.  Its
    context holds the availability zones looked up for an environment and,
    possibly, the key [aws:cdk:availability-zones:fallback] for stacks
    without one.  The feature flags of the context do not reach the
    properties modelled here and are left out. *)
Record App : Type := {
  zonesOf : Environment -> list string;
  zonesFallback : option (list string)
}.

Record AmpAndGrafanaStack : Type := {
  stackName : string;
  environment : option Environment;
  stackZones : list Str;
  node : Tree;
  vpc : option Ec2.Vpc;
  cluster : option Eks.Cluster;
  prometheusWorkspace : option Aps.CfnWorkspace;
  prometheusScraper : option Aps.CfnScraper
}.

Definition Stack := AmpAndGrafanaStack.

(** [super(scope, id, props)]: an empty stack.  Without an environment the
    zones are those of the fallback key of the context, and the first two of
    [Fn.getAzs()] when the key is not set.  The base class also checks that
    the stack name it derives from [id] is well formed; the ids here are
    taken to be valid names, as the one of bin/index.ts is. *)
Definition Stack_new (scope : App) (id : string) (props : option StackProps) : Stack :=
  let e := match props with Some p => env p | None => None end in
  {| stackName := id;
     environment := e;
     stackZones :=
       match e with
       | Some e' => map Lit (zonesOf scope e')
       | None =>
           match zonesFallback scope with
           | Some zones => map Lit zones
           | None => [FnSelect 0 FnGetAZs; FnSelect 1 FnGetAZs]
           end
       end;
     node := [];
     vpc := None; cluster := None;
     prometheusWorkspace := None; prometheusScraper := None |}.

Definition set_node (t : Tree) (st : Stack) : Stack :=
  {| stackName := stackName st; environment := environment st;
     stackZones := stackZones st; node := t;
     vpc := vpc st; cluster := cluster st;
     prometheusWorkspace := prometheusWorkspace st;
     prometheusScraper := prometheusScraper st |}.

Definition set_vpc (v : Ec2.Vpc) : St Stack unit :=
  fun st =>
    Ok (tt, {| stackName := stackName st; environment := environment st;
               stackZones := stackZones st; node := node st;
               vpc := Some v; cluster := cluster st;
               prometheusWorkspace := prometheusWorkspace st;
               prometheusScraper := prometheusScraper st |}).

Definition set_cluster (c : Eks.Cluster) : St Stack unit :=
  fun st =>
    Ok (tt, {| stackName := stackName st; environment := environment st;
               stackZones := stackZones st; node := node st;
               vpc := vpc st; cluster := Some c;
               prometheusWorkspace := prometheusWorkspace st;
               prometheusScraper := prometheusScraper st |}).

Definition set_prometheusWorkspace (w : Aps.CfnWorkspace) : St Stack unit :=
  fun st =>
    Ok (tt, {| stackName := stackName st; environment := environment st;
               stackZones := stackZones st; node := node st;
               vpc := vpc st; cluster := cluster st;
               prometheusWorkspace := Some w;
               prometheusScraper := prometheusScraper st |}).

Definition set_prometheusScraper (s : Aps.CfnScraper) : St Stack unit :=
  fun st =>
    Ok (tt, {| stackName := stackName st; environment := environment st;
               stackZones := stackZones st; node := node st;
               vpc := vpc st; cluster := cluster st;
               prometheusWorkspace := prometheusWorkspace st;
               prometheusScraper := Some s |}).

(** Using a member of a field of [this]: on a field the constructor has not
    assigned yet this throws. *)
Definition this {A : Type} (name : string) (field : Stack -> option A) : St Stack A :=
  fun st =>
    match field st with
    | Some a => Ok (a, st)
    | None => Err (UndefinedField name)
    end.

(** Reading a field of [this] as it is, assigned or not. *)
Definition peek {A : Type} (field : Stack -> A) : St Stack A :=
  fun st => Ok (field st, st).

(** A library call that creates constructs under the stack. *)
Definition inScope {A : Type} (m : St Tree A) : St Stack A :=
  fun st =>
    match m (node st) with
    | Ok (a, t) => Ok (a, set_node t st)
    | Err e => Err e
    end.

Section Methods.

(** The default export of [../config/config-blob], an opaque text. *)
Variable configBlob : string.

Definition createVPC : St Stack Ec2.Vpc :=
  fun st =>
    inScope (Vpc.new (stackZones st) "VPC"
               {| Ec2.maxAzs := 3;
                  Ec2.enableDnsHostnames := true;
                  Ec2.enableDnsSupport := true |}) st.

Definition createEKSCluster : St Stack Eks.Cluster :=
  kubectlLayer <- inScope (KubectlV30Layer.new "KubectlLayer") ;;
  vpc <- peek vpc ;;
  zones <- peek stackZones ;;
  cluster <- inScope (Cluster.new zones "Cluster"
               {| Eks.vpc := vpc;
                  Eks.kubectlLayer := kubectlLayer;
                  Eks.version := Eks.V1_30;
                  Eks.vpcSubnets := [ {| Ec2.subnetType := Ec2.PRIVATE_WITH_EGRESS |} ];
                  Eks.clusterLogging := [ Eks.API; Eks.AUTHENTICATOR; Eks.AUDIT ];
                  Eks.endpointAccess := Eks.PUBLIC_AND_PRIVATE;
                  Eks.defaultCapacity := None;
                  Eks.defaultCapacityInstance := None |}) ;;
  inScope (Cluster.addNodegroupCapacity cluster "ManagedNodeGroup"
             {| Eks.instanceTypes := [ Ec2.InstanceType_of Ec2.M5 Ec2.LARGE ];
                Eks.desiredSize := Some 1;
                Eks.minSize := None;
                Eks.maxSize := None |}) ;;;
  ret cluster.

Definition createPrometheusWorkspace : St Stack Aps.CfnWorkspace :=
  prometheusWorkspace <- inScope (CfnWorkspace.new "PrometheusWorkspace"
                           {| Aps.alias := "my-prometheus-workspace" |}) ;;
  ret prometheusWorkspace.

Definition createPromehtheusScraper : St Stack Aps.CfnScraper :=
  vpc <- this "vpc" vpc ;;
  selected <- lift (Ec2.selectSubnets vpc
                      {| Ec2.subnetType := Ec2.PRIVATE_WITH_EGRESS |}) ;;
  let privateSubnets := Ec2.subnets selected in
  workspace <- this "prometheusWorkspace" prometheusWorkspace ;;
  cluster <- this "cluster" cluster ;;
  prometheusScraper <- inScope (CfnScraper.new "PrometheusScraper"
      {| Aps.destination :=
           {| Aps.ampConfiguration :=
                {| Aps.workspaceArn := Aps.attrArn workspace |} |};
         Aps.scrapeConfiguration :=
           {| Aps.configurationBlob := configBlob |};
         Aps.source :=
           {| Aps.eksConfiguration :=
                {| Aps.clusterArn := Eks.clusterArn cluster;
                   Aps.subnetIds := map (fun subnet => Ec2.subnetId subnet)
                                        privateSubnets |} |} |}) ;;
  ret prometheusScraper.

Definition clusterRoleManifest : Json.t :=
  Json.JObj
    [ ("apiVersion", Json.str "rbac.authorization.k8s.io/v1");
      ("kind", Json.str "ClusterRole");
      ("metadata", Json.JObj [ ("name", Json.str "aps-collector-role") ]);
      ("rules", Json.JArr
         [ Json.JObj
             [ ("apiGroups", Json.strs [ "" ]);
               ("resources", Json.strs
                  [ "nodes"; "nodes/proxy"; "nodes/metrics"; "services";
                    "endpoints"; "pods"; "ingresses"; "configmaps" ]);
               ("verbs", Json.strs [ "describe"; "get"; "list"; "watch" ]) ];
           Json.JObj
             [ ("apiGroups", Json.strs [ "extensions"; "networking.k8s.io" ]);
               ("resources", Json.strs [ "ingresses/status"; "ingresses" ]);
               ("verbs", Json.strs [ "describe"; "get"; "list"; "watch" ]) ];
           Json.JObj
             [ ("nonResourceURLs", Json.strs [ "/metrics" ]);
               ("verbs", Json.strs [ "get" ]) ] ]) ].

Definition clusterRoleBindingManifest : Json.t :=
  Json.JObj
    [ ("apiVersion", Json.str "rbac.authorization.k8s.io/v1");
      ("kind", Json.str "ClusterRoleBinding");
      ("metadata", Json.JObj [ ("name", Json.str "aps-collector-user-role-binding") ]);
      ("subjects", Json.JArr
         [ Json.JObj
             [ ("kind", Json.str "User");
               ("name", Json.str "aps-collector-user");
               ("apiGroup", Json.str "rbac.authorization.k8s.io") ] ]);
      ("roleRef", Json.JObj
         [ ("kind", Json.str "ClusterRole");
           ("name", Json.str "aps-collector-role");
           ("apiGroup", Json.str "rbac.authorization.k8s.io") ]) ].

(** Lines 176-179: the ARN handed to [Role.fromRoleArn]. *)
Definition modifiedArn (attrRoleArn : Str) : Str :=
  let splitArn := Fn.split "/" attrRoleArn in
  let suffix := Fn.select 3 splitArn in
  let prefix := Fn.select 0 splitArn in
  cat (cat (toStr prefix) (Lit "/")) (toStr suffix).

Definition createPrometheusScraperRoleBinding : St Stack unit :=
  cluster <- this "cluster" cluster ;;
  inScope (Cluster.addManifest cluster "ApsCollectorClusterRole"
             clusterRoleManifest) ;;;
  inScope (Cluster.addManifest cluster "ApsCollectorClusterRoleBinding"
             clusterRoleBindingManifest) ;;;
  prometheusScraper <- this "prometheusScraper" prometheusScraper ;;
  scraperRole <- inScope (Role.fromRoleArn "EKSScraperRole"
                            (modifiedArn (Aps.attrRoleArn prometheusScraper))) ;;
  let username := "aps-collector-user" in
  let groups := [ "system:masters" ] in
  inScope (Cluster.awsAuth_addRoleMapping cluster scraperRole
             {| Eks.username := username; Eks.groups := groups |}).

Definition createGrafanaWorkspace : St Stack unit :=
  grafanaRole <- inScope (Role.new "GrafanaRole"
      {| Iam.assumedBy := Iam.ServicePrincipal "grafana.amazonaws.com";
         Iam.managedPolicies :=
           [ Iam.ManagedPolicy.fromAwsManagedPolicyName
               "AmazonPrometheusFullAccess" ] |}) ;;
  inScope (GrafanaWorkspace.new "GrafanaWorkspace"
      {| Grafana.name := "my-grafana-workspace";
         Grafana.accountAccessType := "CURRENT_ACCOUNT";
         Grafana.authenticationProviders := [ "AWS_SSO" ];
         Grafana.permissionType := "SERVICE_MANAGED";
         Grafana.roleArn := Iam.roleArn grafanaRole;
         Grafana.pluginAdminEnabled := true |}).

(** The statements of the constructor after [super], lines 32-37. *)
Definition constructor_body : list (St Stack unit) :=
  [ (v <- createVPC ;; set_vpc v);
    (c <- createEKSCluster ;; set_cluster c);
    (w <- createPrometheusWorkspace ;; set_prometheusWorkspace w);
    (s <- createPromehtheusScraper ;; set_prometheusScraper s);
    createPrometheusScraperRoleBinding;
    createGrafanaWorkspace ].

(** Running statements in sequence; the first exception ends the run. *)
Fixpoint run {S : Type} (body : list (St S unit)) (s : S) : Result S :=
  match body with
  | [] => Ok s
  | stmt :: rest =>
      match stmt s with
      | Ok (_, s') => run rest s'
      | Err e => Err e
      end
  end.

(** [new AmpAndGrafanaStack(scope, id, props)] *)
Definition construct (scope : App) (id : string) (props : option StackProps)
    : Result Stack :=
  run constructor_body (Stack_new scope id props).

(** Synthesis: the resource definitions of the constructed stack. *)
Definition synth (scope : App) (id : string) (props : option StackProps)
    : Result Tree :=
  match construct scope id props with
  | Ok st => Ok (resources (node st))
  | Err e => Err e
  end.

End Methods.

(** bin/index.ts: the app creates the stack in a fixed environment. *)
Definition mainProps : StackProps :=
  {| env := Some {| account := "114043003553"; region := "us-east-1" |} |}.

Definition main (configBlob : string) (app : App) : Result Stack :=
  construct configBlob app "AmpAndGrafanaStack" (Some mainProps).

(* ------------------------------------------------------------------ *)
(** ** Managed policies of the metrics service

    The policies live in the AWS catalogue, not in the repository; the
    stack names one of them.  The table below records which actions of the
    metrics service each of them grants. *)

Module AwsManagedPolicies.

(** An action pattern of a policy statement covers an action: patterns
    may end in a star. *)
Fixpoint covers (pattern action : string) : bool :=
  match pattern, action with
  | String "*" EmptyString, _ => true
  | EmptyString, EmptyString => true
  | String a p', String b s' => Ascii.eqb a b && covers p' s'
  | _, _ => false
  end.

(** The actions on the metrics service that the service's AWS managed
    policies grant, by policy name. *)
Definition apsActions (policyName : string) : list string :=
  if String.eqb policyName "AmazonPrometheusQueryAccess" then
    [ "aps:GetLabels"; "aps:GetMetricMetadata"; "aps:GetSeries"; "aps:QueryMetrics" ]
  else if String.eqb policyName "AmazonPrometheusRemoteWriteAccess" then
    [ "aps:RemoteWrite" ]
  else if String.eqb policyName "AmazonPrometheusFullAccess" then
    [ "aps:*" ]
  else [].

Definition grants (policy : Iam.ManagedPolicy) (action : string) : bool :=
  existsb (fun pattern => covers pattern action)
          (apsActions (Iam.managedPolicyName policy)).

(** The metrics-read managed policy: query access to the metrics
    service and nothing else. *)
Definition metricsRead : Iam.ManagedPolicy :=
  Iam.ManagedPolicy.fromAwsManagedPolicyName "AmazonPrometheusQueryAccess".

Definition metricsFull : Iam.ManagedPolicy :=
  Iam.ManagedPolicy.fromAwsManagedPolicyName "AmazonPrometheusFullAccess".

End AwsManagedPolicies.

(* ------------------------------------------------------------------ *)
(** ** Authorization inside the cluster

    How the cluster's API server treats the documents the stack applies:
    role-based access control over ClusterRole and ClusterRoleBinding, and
    the built-in administrators' group. *)

Module K8s.

Definition field (key : string) (j : Json.t) : Json.t :=
  match Json.get key j with
  | Some v => v
  | None => Json.JArr []
  end.

Definition textOf (key : string) (j : Json.t) : string :=
  match Json.asText (field key j) with
  | Some s => s
  | None => ""
  end.

Definition member (x : string) (l : list string) : bool :=
  existsb (String.eqb x) l.

(** A request to the API server: for a resource of an API group, possibly
    one of its subresources and one named object, or for a URL outside the
    resources. *)
Inductive Request : Type :=
| ResourceRequest (verb apiGroup resource subresource name : string)
| NonResourceRequest (verb url : string).

Definition verbOf (request : Request) : string :=
  match request with
  | ResourceRequest verb _ _ _ _ => verb
  | NonResourceRequest verb _ => verb
  end.

(** The resource a request is checked for: [resource/subresource] when it
    names a subresource. *)
Definition combined (resource subresource : string) : string :=
  if String.eqb subresource "" then resource
  else resource ++ "/" ++ subresource.

(** An entry of a rule matches a value; the star matches every value. *)
Definition matches (entry value : string) : bool :=
  String.eqb entry "*" || String.eqb entry value.

Definition anyMatches (entries : list string) (value : string) : bool :=
  existsb (fun entry => matches entry value) entries.

(** Resources also match through an entry of the form [*/subresource]. *)
Definition resourceMatches (entries : list string)
    (resource subresource : string) : bool :=
  existsb (fun entry =>
             matches entry (combined resource subresource)
             || negb (String.eqb subresource "")
                && String.eqb entry ("*/" ++ subresource))
          entries.

(** A rule without resource names covers every object. *)
Definition nameMatches (entries : list string) (name : string) : bool :=
  match entries with
  | [] => true
  | _ => member name entries
  end.

Fixpoint allStars (s : string) : bool :=
  match s with
  | EmptyString => true
  | String c rest => Ascii.eqb c "*" && allStars rest
  end.

(** A URL entry covers a URL: the same text, or the entry ends in stars and
    the URL starts with what is before them. *)
Fixpoint urlCovers (entry url : string) : bool :=
  match entry with
  | EmptyString => String.eqb url ""
  | String a rest =>
      if allStars entry then true
      else match url with
           | EmptyString => false
           | String b url' => Ascii.eqb a b && urlCovers rest url'
           end
  end.

(** A rule of a ClusterRole covers a request. *)
Definition ruleAllows (rule : Json.t) (request : Request) : bool :=
  match request with
  | ResourceRequest verb apiGroup resource subresource name =>
      anyMatches (Json.texts (field "verbs" rule)) verb
      && anyMatches (Json.texts (field "apiGroups" rule)) apiGroup
      && resourceMatches (Json.texts (field "resources" rule)) resource subresource
      && nameMatches (Json.texts (field "resourceNames" rule)) name
  | NonResourceRequest verb url =>
      anyMatches (Json.texts (field "verbs" rule)) verb
      && existsb (fun entry => urlCovers entry url)
                 (Json.texts (field "nonResourceURLs" rule))
  end.

Definition roleAllows (role : Json.t) (request : Request) : bool :=
  existsb (fun rule => ruleAllows rule request)
          (Json.items (field "rules" role)).

(** A ClusterRoleBinding names the user among its subjects. *)
Definition bindsUser (binding : Json.t) (user : string) : bool :=
  existsb (fun subject =>
             String.eqb (textOf "kind" subject) "User"
             && String.eqb (textOf "name" subject) user)
          (Json.items (field "subjects" binding)).

Definition roleRef (binding : Json.t) : string :=
  textOf "name" (field "roleRef" binding).

Definition nameOf (manifest : Json.t) : string :=
  textOf "name" (field "metadata" manifest).

(** What role-based access control grants a user through the bindings
    and roles applied to the cluster. *)
Definition rbacAllows (roles bindings : list Json.t)
    (user : string) (request : Request) : bool :=
  existsb (fun binding =>
             bindsUser binding user
             && existsb (fun role =>
                           String.eqb (nameOf role) (roleRef binding)
                           && roleAllows role request)
                        roles)
          bindings.

(** The group of cluster administrators: its members may do anything. *)
Definition adminGroup : string := "system:masters".

(** Authorization of a request by an identity that the identity mapping
    translated to a user name and a list of groups. *)
Definition authorized (roles bindings : list Json.t)
    (mapping : Eks.AwsAuthMapping) (request : Request) : bool :=
  member adminGroup (Eks.groups mapping)
  || rbacAllows roles bindings (Eks.username mapping) request.

End K8s.

(* ------------------------------------------------------------------ *)
(** ** Provisioning orders

    The provisioning engine creates resources in any order that respects
    the references between their definitions. *)

Fixpoint position (x : string) (order : list string) : option nat :=
  match order with
  | [] => None
  | y :: rest => if String.eqb y x then Some 0 else option_map S (position x rest)
  end.

(** [a] comes before [b] in the order; both occur in it. *)
Definition before (a b : string) (order : list string) : bool :=
  match position a order, position b order with
  | Some i, Some j => Nat.ltb i j
  | _, _ => false
  end.

Fixpoint distinct (l : list string) : bool :=
  match l with
  | [] => true
  | x :: rest => negb (K8s.member x rest) && distinct rest
  end.

(** An order in which the provisioning engine may submit the resources of a
    template: every resource once, and each one after the resources its
    definition refers to. *)
Definition schedulable (template : Tree) (order : list string) : bool :=
  distinct order
  && forallb (fun p => hasPath p template) order
  && forallb (fun e => K8s.member (fst e) order
                       && forallb (fun d => before d (fst e) order) (deps (snd e)))
             template.

(** The two manifests and the identity mapping of the access binding. *)
Definition accessBindings : list string :=
  [ "Cluster/manifest-ApsCollectorClusterRole";
    "Cluster/manifest-ApsCollectorClusterRoleBinding";
    "Cluster/AwsAuth" ].

(* ------------------------------------------------------------------ *)
(** ** Subnet tiers and examples *)

(** Identifiers of the subnets of one tier of the network. *)
Definition subnetIdsOfType (v : Ec2.Vpc) (type : Ec2.SubnetType) : list Str :=
  map (fun e => Ec2.subnetId (snd e))
      (filter (fun e => Ec2.SubnetType_eqb (fst e) type) (Ec2.taggedSubnets v)).

Definition scraperSubnetIds (p : Aps.CfnScraperProps) : list Str :=
  Aps.subnetIds (Aps.eksConfiguration (Aps.source p)).

(** The app of the examples: an account with three zones in the region. *)
Definition exampleApp : App :=
  {| zonesOf := fun _ => [ "us-east-1a"; "us-east-1b"; "us-east-1c" ];
     zonesFallback := None |}.



(** An app with the fallback key set, for stacks without an environment. *)
Definition exampleFallbackApp : App :=
  {| zonesOf := fun _ => [];
     zonesFallback := Some [ "eu-west-1a"; "eu-west-1b"; "eu-west-1c" ] |}.

(** A scrape configuration for the examples. *)
Definition exampleBlob : string := "scrape_configs: []".

(** The resource definitions of the example stack. *)
Definition exampleTemplate : Tree :=
  Eval vm_compute in
    match synth exampleBlob exampleApp "AmpAndGrafanaStack" (Some mainProps) with
    | Ok template => template
    | Err _ => []
    end.

(** The aws-auth resource moved to the end of an order. *)
Definition awsAuthLast (order : list string) : list string :=
  (filter (fun p => negb (String.eqb p "Cluster/AwsAuth")) order
   ++ filter (fun p => String.eqb p "Cluster/AwsAuth") order)%list.

(** The two manifests of the access binding moved in front of the
    scraper. *)
Definition manifestsBeforeScraper (order : list string) : list string :=
  let manifests := [ "Cluster/manifest-ApsCollectorClusterRole";
                     "Cluster/manifest-ApsCollectorClusterRoleBinding" ] in
  flat_map (fun p => if String.eqb p "PrometheusScraper"
                     then (manifests ++ [ p ])%list
                     else [ p ])
           (filter (fun p => negb (K8s.member p manifests)) order).

(** An order the engine may follow for the stack of bin/index.ts: the role
    and the role binding are submitted when the cluster and its node groups
    are there, before the scraper; aws-auth comes last. *)
Definition exampleOrder : list string :=
  Eval vm_compute in manifestsBeforeScraper (awsAuthLast (paths exampleTemplate)).

(** The node groups of a template, with their instance types and sizes. *)
Definition nodegroups (t : Tree)
    : list (string * list Ec2.InstanceType * Eks.ScalingConfig) :=
  flat_map (fun e => match snd e with
                     | Nodegroup _ _ _ options sizes =>
                         [ (fst e, Eks.instanceTypes options, sizes) ]
                     | _ => []
                     end) t.



(* ------------------------------------------------------------------ *)
(** ** Growth of the construct tree *)

(** [t'] has the constructs of [t], in the same order, and possibly more
    after them. *)
Definition extends (t t' : Tree) : Prop :=
  exists added, paths t' = (paths t ++ added)%list.

(** A library call that only adds constructs and keeps their paths
    distinct. *)
Definition GrowsTree {A : Type} (m : St Tree A) : Prop :=
  forall t a t',
    m t = Ok (a, t') ->
    extends t t' /\ (NoDup (paths t) -> NoDup (paths t')).

(** A method of the stack that only adds constructs and keeps their paths
    distinct. *)
Definition Grows {A : Type} (m : St Stack A) : Prop :=
  forall st a st',
    m st = Ok (a, st') ->
    extends (node st) (node st')
    /\ (NoDup (paths (node st)) -> NoDup (paths (node st'))).

(** A method that leaves the fields of the stack as they are. *)
Definition KeepsFields {A : Type} (m : St Stack A) : Prop :=
  forall st a st',
    m st = Ok (a, st') ->
    vpc st' = vpc st
    /\ cluster st' = cluster st
    /\ prometheusWorkspace st' = prometheusWorkspace st
    /\ prometheusScraper st' = prometheusScraper st.

(** A library call that, when it returns, has created the construct at
    [path]. *)
Definition Creates {A : Type} (path : string) (m : St Tree A) : Prop :=
  forall t a t', m t = Ok (a, t') -> hasPath path t' = true.

(** A library call that throws when there is a construct at [path]. *)
Definition Refuses {A : Type} (path : string) (m : St Tree A) : Prop :=
  forall t, hasPath path t = true -> m t = Err (DuplicateConstruct path).

(** A stack that holds a construct of another origin before the constructor
    body runs. *)
Definition exampleOccupiedStack : Stack :=
  set_node [ ("Existing", LayerVersion) ]
           (Stack_new exampleApp "AmpAndGrafanaStack" (Some mainProps)).

(** The example stack after the first four statements of the constructor:
    the cluster holds the identity mappings of its two node groups. *)
Definition exampleStackWithNodeMapping : Stack :=
  Eval vm_compute in
    match run (firstn 4 (constructor_body exampleBlob))
              (Stack_new exampleApp "AmpAndGrafanaStack" (Some mainProps)) with
    | Ok st => st
    | Err _ => Stack_new exampleApp "AmpAndGrafanaStack" (Some mainProps)
    end.

(** The example stack after the first three statements of the constructor:
    network, cluster and metrics workspace are assigned. *)
Definition exampleStackBeforeScraper : Stack :=
  Eval vm_compute in
    match run (firstn 3 (constructor_body exampleBlob))
              (Stack_new exampleApp "AmpAndGrafanaStack" (Some mainProps)) with
    | Ok st => st
    | Err _ => Stack_new exampleApp "AmpAndGrafanaStack" (Some mainProps)
    end.

(** A resource definition with the scrape configuration blanked out. *)
Definition withoutBlob (r : Resource) : Resource :=
  match r with
  | ApsScraper p =>
      ApsScraper {| Aps.destination := Aps.destination p;
                    Aps.scrapeConfiguration := {| Aps.configurationBlob := "" |};
                    Aps.source := Aps.source p |}
  | _ => r
  end.

(** The two workspaces and the dashboard role moved to the front of an
    order. *)
Definition workspacesFirst (order : list string) : list string :=
  let front := [ "PrometheusWorkspace"; "GrafanaRole"; "GrafanaWorkspace" ] in
  (front ++ filter (fun p => negb (K8s.member p front)) order)%list.

(* ------------------------------------------------------------------ *)
(** * Properties *)

(* ------------------------------------------------------------------ *)
(** ** Splitting on a slash *)

Example split_plain : Js.split "/" "role/Name" = [ "role"; "Name" ].
Proof. reflexivity. Qed.

Example split_empty_segments : Js.split "/" "/a//" = [ ""; "a"; ""; "" ].
Proof. reflexivity. Qed.

Example split_no_separator : Js.split "/" "" = [ "" ].
Proof. reflexivity. Qed.

Example split_long_separator : Js.split "::" "arn::aws::iam" = [ "arn"; "aws"; "iam" ].
Proof. reflexivity. Qed.

Lemma string_app_assoc (a b c : string) : (a ++ b) ++ c = a ++ (b ++ c).
Proof. induction a as [|x a IH]; simpl; [reflexivity | now rewrite IH]. Qed.

Lemma string_app_empty_r (a : string) : a ++ "" = a.
Proof. induction a as [|x a IH]; simpl; [reflexivity | now rewrite IH]. Qed.

Lemma split_from_nonempty (sep : string) (skip : nat) (cur s : string) :
  Js.split_from sep skip cur s <> [].
Proof.
  revert skip cur.
  induction s as [|c s IH]; intros skip cur; simpl.
  - discriminate.
  - destruct skip as [|k]; [|apply IH].
    destruct (Js.startsWith sep (String c s)); [discriminate | apply IH].
Qed.

(** A slash-free text runs into the current segment. *)
Lemma split_from_lacks (cur p : string) :
  Js.lacks "/" p = true ->
  Js.split_from "/" 0 cur p = [cur ++ p].
Proof.
  revert cur.
  induction p as [|c p IH]; intros cur H;
    cbn [Js.lacks] in H; cbn [Js.split_from Js.startsWith append].
  - now rewrite string_app_empty_r.
  - apply andb_prop in H. destruct H as [Hc Hp].
    rewrite Ascii.eqb_sym in Hc. apply negb_true_iff in Hc.
    rewrite Hc. cbn [andb]. rewrite IH by assumption.
    now rewrite string_app_assoc.
Qed.

(** A slash closes the current segment. *)
Lemma split_from_slash (cur p rest : string) :
  Js.lacks "/" p = true ->
  Js.split_from "/" 0 cur (p ++ "/" ++ rest)
  = (cur ++ p) :: Js.split_from "/" 0 "" rest.
Proof.
  revert cur.
  induction p as [|c p IH]; intros cur H;
    cbn [Js.lacks] in H; cbn [Js.split_from Js.startsWith append].
  - now rewrite string_app_empty_r.
  - apply andb_prop in H. destruct H as [Hc Hp].
    rewrite Ascii.eqb_sym in Hc. apply negb_true_iff in Hc.
    rewrite Hc. cbn [andb]. rewrite IH by assumption.
    now rewrite string_app_assoc.
Qed.

Lemma split_four (p a b c : string) :
  Js.lacks "/" p = true -> Js.lacks "/" a = true ->
  Js.lacks "/" b = true -> Js.lacks "/" c = true ->
  Js.split "/" (p ++ "/" ++ a ++ "/" ++ b ++ "/" ++ c) = [p; a; b; c].
Proof.
  intros Hp Ha Hb Hc. unfold Js.split.
  rewrite (split_from_slash "" p) by assumption.
  rewrite (split_from_slash "" a) by assumption.
  rewrite (split_from_slash "" b) by assumption.
  rewrite (split_from_lacks "" c) by assumption.
  reflexivity.
Qed.

Lemma split_slash_head (s : string) :
  exists first rest, Js.split "/" s = first :: rest.
Proof.
  unfold Js.split.
  destruct (Js.split_from "/" 0 "" s) as [|x l] eqn:E.
  - now apply split_from_nonempty in E.
  - now exists x, l.
Qed.

(* ------------------------------------------------------------------ *)
(** ** The role reference derived from the scraper's role ARN *)

(** C2.  On a role ARN of the form [prefix/aa/bb/cc], four texts without a
    slash, the transformation splits at the slashes and joins the first
    segment with the last one: the result is [prefix/cc]. *)
Theorem modifiedArn_prefix_cc (prefix aa bb cc : string) :
  Js.lacks "/" prefix = true -> Js.lacks "/" aa = true ->
  Js.lacks "/" bb = true -> Js.lacks "/" cc = true ->
  Fn.split "/" (Lit (prefix ++ "/" ++ aa ++ "/" ++ bb ++ "/" ++ cc))
    = Elems [prefix; aa; bb; cc]
  /\ modifiedArn (Lit (prefix ++ "/" ++ aa ++ "/" ++ bb ++ "/" ++ cc))
    = Lit (prefix ++ "/" ++ cc).
Proof.
  intros Hp Ha Hb Hc.
  unfold modifiedArn, Fn.split. cbn [isUnresolved chars].
  rewrite split_four by assumption.
  split; [reflexivity|].
  simpl. now rewrite string_app_assoc.
Qed.

Lemma modifiedArn_prefix_cc_witness :
  Fn.split "/"
    (Lit "arn:aws:iam::123:role/aws-service-role/aps.amazonaws.com/AWSServiceRoleForAmazonPrometheusScraper_x")
  = Elems [ "arn:aws:iam::123:role"; "aws-service-role"; "aps.amazonaws.com";
            "AWSServiceRoleForAmazonPrometheusScraper_x" ]
  /\ modifiedArn
       (Lit "arn:aws:iam::123:role/aws-service-role/aps.amazonaws.com/AWSServiceRoleForAmazonPrometheusScraper_x")
     = Lit "arn:aws:iam::123:role/AWSServiceRoleForAmazonPrometheusScraper_x".
Proof.
  apply (modifiedArn_prefix_cc "arn:aws:iam::123:role" "aws-service-role"
           "aps.amazonaws.com" "AWSServiceRoleForAmazonPrometheusScraper_x");
    reflexivity.
Defined.

(** C3.  The transformation has no error path.  Every resolved input yields
    resolved text: the first segment, a slash, and the fourth segment, or
    the text [undefined] where the input has fewer than four segments.  An
    unresolved input yields the two selections as intrinsics, with no check
    of the shape either. *)
Theorem modifiedArn_never_throws (attrRoleArn : Str) :
  if isUnresolved attrRoleArn
  then modifiedArn attrRoleArn
       = Cat (Cat (FnSelect 0 (FnSplit "/" attrRoleArn)) (Lit "/"))
             (FnSelect 3 (FnSplit "/" attrRoleArn))
  else exists first rest,
         Js.split "/" (chars attrRoleArn) = first :: rest
         /\ modifiedArn attrRoleArn
            = Lit (first ++ "/" ++ match rest with
                                   | _ :: _ :: fourth :: _ => fourth
                                   | _ => "undefined"
                                   end).
Proof.
  unfold modifiedArn, Fn.split.
  destruct (isUnresolved attrRoleArn); [reflexivity|].
  destruct (split_slash_head (chars attrRoleArn)) as (first & rest & E).
  exists first, rest. split; [assumption|].
  rewrite E.
  destruct rest as [|x1 [|x2 [|x3 rest]]]; simpl; now rewrite string_app_assoc.
Qed.

(** Fewer than four segments: the reference ends in [undefined]. *)
Example modifiedArn_two_segments :
  modifiedArn (Lit "arn:aws:iam::123:role/x") = Lit "arn:aws:iam::123:role/undefined".
Proof. reflexivity. Qed.

(** More than four segments: the fourth one is taken, not the last. *)
Example modifiedArn_five_segments :
  modifiedArn (Lit "p/a/b/c/d") = Lit "p/c".
Proof. reflexivity. Qed.

(* ------------------------------------------------------------------ *)
(** ** Construction of the stack *)

(** The network has at most three zones ([maxAzs: 3]); a proof about the
    constructed stack goes through the four shapes the zone list of the
    stack can have. *)
Ltac zone_cases :=
  unfold synth, construct, Stack_new; cbv zeta;
  match goal with
  | |- context [ Build_AmpAndGrafanaStack _ _ ?z _ _ _ _ _ ] => generalize z
  end;
  let zs := fresh "zs" in
  intros zs; destruct zs as [|? [|? [|? ?]]].

Ltac constructed :=
  eexists; split; [vm_compute; reflexivity|].

(** With at least one zone the constructor returns. *)
Lemma construct_succeeds (configBlob : string) (scope : App) (id : string)
    (props : option StackProps) :
  1 <= length (stackZones (Stack_new scope id props)) ->
  exists st, construct configBlob scope id props = Ok st.
Proof.
  zone_cases; intros Hzones; simpl in Hzones; [lia| | |];
    eexists; vm_compute; reflexivity.
Qed.

(** Without a zone the network has no subnets and [new eks.Cluster] throws
    when it selects the private ones. *)
Lemma construct_throws_without_zones (configBlob : string) (scope : App)
    (id : string) (props : option StackProps) :
  stackZones (Stack_new scope id props) = [] ->
  construct configBlob scope id props = Err (NoSubnetGroups "Private").
Proof.
  zone_cases; intros Hzones; try discriminate Hzones.
  vm_compute. reflexivity.
Qed.

(** C5, as stated, fails: in the stack that bin/index.ts creates the node
    group of desired size 1 is not the only node capacity of the cluster.
    [new eks.Cluster] is called without [defaultCapacity], so the cluster
    also gets the default capacity of the library, a node group of two
    instances. *)
Lemma cluster_has_default_capacity :
  exists st role subnets sizes,
    main exampleBlob exampleApp = Ok st
    /\ find "Cluster/NodegroupDefaultCapacity" (node st)
       = Some (Nodegroup (Ref "Cluster") role subnets
                 {| Eks.instanceTypes := [ "m5.large" ];
                    Eks.desiredSize := None;
                    Eks.minSize := Some 2;
                    Eks.maxSize := None |}
                 sizes)
    /\ Eks.scalingDesired sizes = 2
    /\ Eks.scalingDesired sizes <> 1
    /\ map (fun g => Eks.scalingDesired (snd g)) (nodegroups (node st)) = [ 2; 1 ].
Proof.
  do 4 eexists. split; [vm_compute; reflexivity|].
  split; [reflexivity|]. split; [reflexivity|].
  split; [discriminate | reflexivity].
Qed.

(** C5, amended.  With at least one availability zone, whatever the app, the
    stack id, the environment and the scrape configuration are: the node
    group the stack adds has desired size 1 and instance type m5.large, and
    no minimum or maximum size, which the library resolves to 1 and 1.  It is
    not the only node capacity: the cluster has a second node group, the
    default capacity of two m5.large instances.  Both groups have fixed
    sizes, minimum, desired and maximum being equal. *)
Theorem nodegroup_fixed_capacity (configBlob : string) (scope : App)
    (id : string) (props : option StackProps) :
  1 <= length (stackZones (Stack_new scope id props)) ->
  exists st v,
    construct configBlob scope id props = Ok st
    /\ vpc st = Some v
    /\ find "Cluster/NodegroupManagedNodeGroup" (node st)
       = Some (Nodegroup (Ref "Cluster")
                 (GetAtt "Cluster/NodegroupManagedNodeGroup/NodeGroupRole" "Arn")
                 (Ec2.privateSubnets v)
                 {| Eks.instanceTypes := [ Ec2.InstanceType_of Ec2.M5 Ec2.LARGE ];
                    Eks.desiredSize := Some 1;
                    Eks.minSize := None;
                    Eks.maxSize := None |}
                 {| Eks.scalingDesired := 1;
                    Eks.scalingMin := 1;
                    Eks.scalingMax := 1 |})
    /\ Ec2.InstanceType_of Ec2.M5 Ec2.LARGE = "m5.large"
    /\ nodegroups (node st)
       = [ ("Cluster/NodegroupDefaultCapacity", [ "m5.large" ],
            {| Eks.scalingDesired := 2; Eks.scalingMin := 2; Eks.scalingMax := 2 |});
           ("Cluster/NodegroupManagedNodeGroup", [ "m5.large" ],
            {| Eks.scalingDesired := 1; Eks.scalingMin := 1; Eks.scalingMax := 1 |}) ]
    /\ forall path cn role subnets options sizes,
         In (path, Nodegroup cn role subnets options sizes) (node st) ->
         Eks.instanceTypes options = [ "m5.large" ]
         /\ sizes = Eks.scaling options
         /\ Eks.scalingMin sizes = Eks.scalingDesired sizes
         /\ Eks.scalingMax sizes = Eks.scalingDesired sizes.
Proof.
  zone_cases; intros Hzones; simpl in Hzones; [lia| | |];
    do 2 eexists; (split; [vm_compute; reflexivity|]);
    do 4 (split; [reflexivity|]);
    intros path cn role subnets options sizes H; simpl in H;
    repeat (destruct H as [H|H]; [try discriminate H|]); try contradiction;
    injection H as <- <- <- <- <- <-; repeat apply conj; reflexivity.
Qed.

Lemma nodegroup_fixed_capacity_witness :
  1 <= length (stackZones (Stack_new exampleApp "AmpAndGrafanaStack" (Some mainProps)))
  /\ exists st,
       construct exampleBlob exampleApp "AmpAndGrafanaStack" (Some mainProps) = Ok st
       /\ map (fun g => Eks.scalingDesired (snd g)) (nodegroups (node st)) = [ 2; 1 ].
Proof.
  split; [simpl; lia|].
  destruct (nodegroup_fixed_capacity exampleBlob exampleApp "AmpAndGrafanaStack"
              (Some mainProps))
    as (st & v & Hst & _ & _ & _ & Hgroups & _); [simpl; lia|].
  exists st. split; [exact Hst|]. rewrite Hgroups. reflexivity.
Defined.

(** C8.  With at least one availability zone the cluster is created in the
    stack's network, is placed in the private subnets with egress of that
    network, logs exactly the API, authenticator and audit streams, and has
    both a public and a private endpoint; it is the only cluster. *)
Theorem cluster_placement_logging_endpoint (configBlob : string) (scope : App)
    (id : string) (props : option StackProps) :
  1 <= length (stackZones (Stack_new scope id props)) ->
  exists st v p subnets roles,
    construct configBlob scope id props = Ok st
    /\ vpc st = Some v
    /\ find "Cluster" (node st) = Some (EksCluster p v subnets roles)
    /\ Eks.vpc p = Some v
    /\ Eks.vpcSubnets p = [ {| Ec2.subnetType := Ec2.PRIVATE_WITH_EGRESS |} ]
    /\ Eks.placement v (Eks.vpcSubnets p) = Ok subnets
    /\ subnets = Ec2.privateSubnets v
    /\ Eks.clusterLogging p = [ Eks.API; Eks.AUTHENTICATOR; Eks.AUDIT ]
    /\ (forall t, In t (Eks.clusterLogging p)
                  <-> t = Eks.API \/ t = Eks.AUTHENTICATOR \/ t = Eks.AUDIT)
    /\ Eks.endpointAccess p = Eks.PUBLIC_AND_PRIVATE
    /\ (forall path p' v' subnets' roles',
          In (path, EksCluster p' v' subnets' roles') (node st) ->
          path = "Cluster" /\ p' = p /\ subnets' = subnets).
Proof.
  zone_cases; intros Hzones; simpl in Hzones; [lia| | |];
    do 5 eexists;
    (split; [vm_compute; reflexivity|]);
    do 7 (split; [reflexivity|]);
    (split; [intros t; simpl; intuition congruence|]);
    (split; [reflexivity|]);
    intros path p' v' subnets' roles' H; simpl in H;
    repeat (destruct H as [H|H]; [try discriminate H|]); try contradiction;
    injection H as <- <- <- <- <-; repeat apply conj; reflexivity.
Qed.

Lemma cluster_placement_logging_endpoint_witness :
  1 <= length (stackZones (Stack_new exampleApp "AmpAndGrafanaStack" (Some mainProps)))
  /\ exists st p v subnets roles,
       construct exampleBlob exampleApp "AmpAndGrafanaStack" (Some mainProps) = Ok st
       /\ find "Cluster" (node st) = Some (EksCluster p v subnets roles)
       /\ map Ec2.subnetId subnets
          = [ Ref "VPC/PrivateSubnet1"; Ref "VPC/PrivateSubnet2";
              Ref "VPC/PrivateSubnet3" ]
       /\ Eks.clusterLogging p = [ Eks.API; Eks.AUTHENTICATOR; Eks.AUDIT ]
       /\ Eks.endpointAccess p = Eks.PUBLIC_AND_PRIVATE.
Proof.
  split; [simpl; lia|].
  destruct (cluster_placement_logging_endpoint exampleBlob exampleApp
              "AmpAndGrafanaStack" (Some mainProps))
    as (st & v & p & subnets & roles & Hst & Hv & Hc & _ & _ & _ & Hs & Hl & _ & He & _);
    [simpl; lia|].
  exists st, p, v, subnets, roles.
  split; [exact Hst|]. split; [exact Hc|].
  split; [|split; assumption].
  rewrite Hs.
  assert (E : Some v = match main exampleBlob exampleApp with
                       | Ok s => vpc s
                       | Err _ => None
                       end).
  { unfold main. rewrite Hst. now symmetry. }
  vm_compute in E. injection E as ->. reflexivity.
Defined.

(* ------------------------------------------------------------------ *)
(** ** The role of the dashboard workspace *)

Lemma Principal_eqb_eq (p q : Iam.Principal) :
  Iam.Principal_eqb p q = true <-> p = q.
Proof.
  destruct p, q; simpl; try (split; [discriminate | discriminate]);
    try rewrite String.eqb_eq; try (split; congruence).
Qed.

(** C10.  With at least one availability zone the role of the dashboard
    workspace is created with a trust policy that lets the service principal
    grafana.amazonaws.com assume it and nobody else. *)
Theorem grafana_role_trust_policy (configBlob : string) (scope : App)
    (id : string) (props : option StackProps) :
  1 <= length (stackZones (Stack_new scope id props)) ->
  exists st p w,
    construct configBlob scope id props = Ok st
    /\ find "GrafanaRole" (node st) = Some (IamRole p)
    /\ find "GrafanaWorkspace" (node st) = Some (GrafanaWorkspace w)
    /\ Grafana.roleArn w = GetAtt "GrafanaRole" "Arn"
    /\ Iam.assumedBy p = Iam.ServicePrincipal "grafana.amazonaws.com"
    /\ forall q, Iam.mayAssume p q = true
                 <-> q = Iam.ServicePrincipal "grafana.amazonaws.com".
Proof.
  zone_cases; intros Hzones; simpl in Hzones; [lia| | |];
    do 3 eexists;
    (split; [vm_compute; reflexivity|]);
    do 4 (split; [reflexivity|]);
    intros q; unfold Iam.mayAssume, Iam.allows, Iam.assumeRolePolicy;
    cbn [existsb Iam.effect Iam.actions Iam.principals Iam.assumedBy Iam.covers];
    rewrite String.eqb_refl, !orb_false_r, andb_true_l, Principal_eqb_eq;
    split; congruence.
Qed.

Lemma grafana_role_trust_policy_witness :
  1 <= length (stackZones (Stack_new exampleApp "AmpAndGrafanaStack" (Some mainProps)))
  /\ exists st p,
       construct exampleBlob exampleApp "AmpAndGrafanaStack" (Some mainProps) = Ok st
       /\ find "GrafanaRole" (node st) = Some (IamRole p)
       /\ Iam.mayAssume p (Iam.ServicePrincipal "grafana.amazonaws.com") = true
       /\ Iam.mayAssume p (Iam.ServicePrincipal "ec2.amazonaws.com") <> true
       /\ Iam.mayAssume p Iam.AccountRootPrincipal <> true.
Proof.
  split; [simpl; lia|].
  destruct (grafana_role_trust_policy exampleBlob exampleApp "AmpAndGrafanaStack"
              (Some mainProps))
    as (st & p & w & Hst & Hp & _ & _ & _ & Hq); [simpl; lia|].
  exists st, p. split; [exact Hst|]. split; [exact Hp|].
  split; [apply Hq; reflexivity|].
  split; intros H; apply Hq in H; discriminate H.
Defined.

(** C1, as stated, fails: in the stack that bin/index.ts creates the role of
    the dashboard workspace does not carry the metrics-read policy; the
    policy it carries also grants what the read policy does not, such as
    deleting a metrics workspace. *)
Lemma grafana_role_policy_not_read_only :
  exists st p,
    main exampleBlob exampleApp = Ok st
    /\ find "GrafanaRole" (node st) = Some (IamRole p)
    /\ Iam.managedPolicies p <> [ AwsManagedPolicies.metricsRead ]
    /\ Forall (fun policy =>
                 AwsManagedPolicies.grants policy "aps:DeleteWorkspace" = true
                 /\ AwsManagedPolicies.grants AwsManagedPolicies.metricsRead
                      "aps:DeleteWorkspace" = false)
              (Iam.managedPolicies p).
Proof.
  do 2 eexists. split; [vm_compute; reflexivity|].
  split; [reflexivity|]. split; [discriminate|].
  repeat constructor.
Qed.

(** C1, amended.  With at least one availability zone, for every app, stack
    id, environment and scrape configuration, the role the dashboard
    workspace runs with has exactly one managed policy,
    AmazonPrometheusFullAccess, the full-access policy of the metrics
    service, which grants every action of that service. *)
Theorem grafana_role_managed_policies (configBlob : string) (scope : App)
    (id : string) (props : option StackProps) :
  1 <= length (stackZones (Stack_new scope id props)) ->
  exists st p w,
    construct configBlob scope id props = Ok st
    /\ find "GrafanaRole" (node st) = Some (IamRole p)
    /\ find "GrafanaWorkspace" (node st) = Some (GrafanaWorkspace w)
    /\ Grafana.roleArn w = GetAtt "GrafanaRole" "Arn"
    /\ Iam.managedPolicies p
       = [ Iam.ManagedPolicy.fromAwsManagedPolicyName "AmazonPrometheusFullAccess" ]
    /\ Iam.managedPolicies p = [ AwsManagedPolicies.metricsFull ]
    /\ forall action,
         AwsManagedPolicies.grants AwsManagedPolicies.metricsFull
           ("aps:" ++ action) = true.
Proof.
  zone_cases; intros Hzones; simpl in Hzones; [lia| | |];
    do 3 eexists;
    (split; [vm_compute; reflexivity|]);
    do 5 (split; [reflexivity|]);
    intros action; reflexivity.
Qed.

Lemma grafana_role_managed_policies_witness :
  1 <= length (stackZones (Stack_new exampleApp "AmpAndGrafanaStack" (Some mainProps)))
  /\ exists st p,
       construct exampleBlob exampleApp "AmpAndGrafanaStack" (Some mainProps) = Ok st
       /\ find "GrafanaRole" (node st) = Some (IamRole p)
       /\ Iam.managedPolicies p = [ AwsManagedPolicies.metricsFull ].
Proof.
  split; [simpl; lia|].
  destruct (grafana_role_managed_policies exampleBlob exampleApp "AmpAndGrafanaStack"
              (Some mainProps))
    as (st & p & w & Hst & Hp & _ & _ & _ & Hm & _); [simpl; lia|].
  exists st, p. repeat split; assumption.
Defined.

(* ------------------------------------------------------------------ *)
(** ** Access inside the cluster *)

Lemma member_In (x : string) (l : list string) :
  K8s.member x l = true -> In x l.
Proof.
  unfold K8s.member. rewrite existsb_exists.
  intros (y & Hy & E). apply String.eqb_eq in E. now subst.
Qed.

(** Entries without a star match by equality only. *)
Lemma anyMatches_plain (entries : list string) (value : string) :
  forallb (fun entry => negb (Js.startsWith "*" entry)) entries = true ->
  (K8s.anyMatches entries value = true <-> In value entries).
Proof.
  intros Hplain. unfold K8s.anyMatches.
  induction entries as [|entry entries IH]; cbn [existsb In forallb] in *.
  - split; [discriminate | tauto].
  - apply andb_prop in Hplain. destruct Hplain as [Hentry Hplain].
    rewrite orb_true_iff, (IH Hplain). unfold K8s.matches.
    rewrite orb_true_iff, !String.eqb_eq.
    assert (entry <> "*") by (intros ->; discriminate Hentry).
    tauto.
Qed.

Lemma star_prefix (s : string) : Js.startsWith "*" ("*/" ++ s) = true.
Proof. reflexivity. Qed.

Lemma resourceMatches_plain (entries : list string) (resource subresource : string) :
  forallb (fun entry => negb (Js.startsWith "*" entry)) entries = true ->
  (K8s.resourceMatches entries resource subresource = true
   <-> In (K8s.combined resource subresource) entries).
Proof.
  intros Hplain. unfold K8s.resourceMatches.
  induction entries as [|entry entries IH]; cbn [existsb In forallb] in *.
  - split; [discriminate | tauto].
  - apply andb_prop in Hplain. destruct Hplain as [Hentry Hplain].
    rewrite orb_true_iff, (IH Hplain). unfold K8s.matches.
    rewrite !orb_true_iff, andb_true_iff, !String.eqb_eq.
    assert (entry <> "*") by (intros ->; discriminate Hentry).
    assert (entry <> "*/" ++ subresource)
      by (intros ->; rewrite star_prefix in Hentry; discriminate Hentry).
    tauto.
Qed.

Lemma allStars_lacks (entry : string) :
  Js.lacks "*" entry = true -> entry <> "" -> K8s.allStars entry = false.
Proof.
  destruct entry as [|c rest]; [congruence|].
  cbn [Js.lacks K8s.allStars]. intros H _.
  apply andb_prop in H. destruct H as [Hc _].
  apply negb_true_iff in Hc. now rewrite Hc.
Qed.

(** A URL entry without a star covers its own text only. *)
Lemma urlCovers_plain (entry url : string) :
  Js.lacks "*" entry = true ->
  K8s.urlCovers entry url = String.eqb entry url.
Proof.
  revert url. induction entry as [|a rest IH]; intros url H.
  - cbn [K8s.urlCovers]. apply String.eqb_sym.
  - cbn [K8s.urlCovers].
    rewrite (allStars_lacks (String a rest) H) by discriminate.
    cbn [Js.lacks] in H. apply andb_prop in H. destruct H as [_ Hrest].
    destruct url as [|b url']; [reflexivity|].
    cbn [String.eqb]. rewrite IH by assumption.
    destruct (Ascii.eqb a b); reflexivity.
Qed.

Ltac rule_entries :=
  repeat match goal with
         | |- context [ Json.texts ?x ] =>
             let entries := eval vm_compute in (Json.texts x) in
             change (Json.texts x) with entries
         end.

(** What the collector role grants: the four read verbs on the listed
    resources of the core group, the same verbs on ingresses in the two
    ingress groups, and [get] on the URL [/metrics]. *)
Lemma roleAllows_collector (request : K8s.Request) :
  K8s.roleAllows clusterRoleManifest request = true
  <-> match request with
      | K8s.ResourceRequest verb apiGroup resource subresource _ =>
          In verb [ "describe"; "get"; "list"; "watch" ]
          /\ (In apiGroup [ "" ]
              /\ In (K8s.combined resource subresource)
                    [ "nodes"; "nodes/proxy"; "nodes/metrics"; "services";
                      "endpoints"; "pods"; "ingresses"; "configmaps" ]
              \/ In apiGroup [ "extensions"; "networking.k8s.io" ]
                 /\ In (K8s.combined resource subresource)
                       [ "ingresses/status"; "ingresses" ])
      | K8s.NonResourceRequest verb url =>
          In verb [ "get" ] /\ In url [ "/metrics" ]
      end.
Proof.
  unfold K8s.roleAllows.
  let rules := eval vm_compute in (Json.items (K8s.field "rules" clusterRoleManifest)) in
  change (Json.items (K8s.field "rules" clusterRoleManifest)) with rules.
  cbn [existsb]. destruct request as [verb apiGroup resource subresource name|verb url];
    unfold K8s.ruleAllows; rule_entries; cbn [K8s.nameMatches existsb].
  - rewrite !orb_true_iff, !andb_true_iff.
    rewrite !(anyMatches_plain _ verb) by reflexivity.
    rewrite !(anyMatches_plain _ apiGroup) by reflexivity.
    rewrite !(resourceMatches_plain _ resource subresource) by reflexivity.
    generalize (K8s.combined resource subresource). intros combined.
    cbn [In]. intuition congruence.
  - rewrite !orb_true_iff, !andb_true_iff.
    rewrite !(anyMatches_plain _ verb) by reflexivity.
    rewrite urlCovers_plain by reflexivity.
    rewrite orb_false_r, String.eqb_eq. cbn [In]. intuition congruence.
Qed.

Lemma bindsUser_collector (user : string) :
  K8s.bindsUser clusterRoleBindingManifest user = true
  <-> user = "aps-collector-user".
Proof.
  change (K8s.bindsUser clusterRoleBindingManifest user)
    with (String.eqb "User" "User" && String.eqb "aps-collector-user" user || false).
  rewrite String.eqb_refl, orb_false_r, andb_true_l, String.eqb_eq.
  split; congruence.
Qed.

(** What role-based access control grants through the two manifests of the
    stack. *)
Lemma rbacAllows_collector (user : string) (request : K8s.Request) :
  K8s.rbacAllows [ clusterRoleManifest ] [ clusterRoleBindingManifest ]
    user request = true
  <-> user = "aps-collector-user"
      /\ K8s.roleAllows clusterRoleManifest request = true.
Proof.
  unfold K8s.rbacAllows. cbn [existsb].
  change (String.eqb (K8s.nameOf clusterRoleManifest)
                     (K8s.roleRef clusterRoleBindingManifest))
    with (String.eqb "aps-collector-role" "aps-collector-role").
  rewrite String.eqb_refl, !orb_false_r, andb_true_l, andb_true_iff.
  now rewrite bindsUser_collector.
Qed.

(** The collector role is read-only: it grants no verb other than
    describe, get, list and watch. *)
Lemma clusterRole_read_only (request : K8s.Request) :
  K8s.roleAllows clusterRoleManifest request = true ->
  In (K8s.verbOf request) [ "describe"; "get"; "list"; "watch" ].
Proof.
  rewrite roleAllows_collector.
  destruct request; cbn [K8s.verbOf In]; tauto.
Qed.

(** C9.  With at least one availability zone: when the role binding runs,
    the identity mappings of the cluster are those of the two node groups;
    the entry added for the imported scraper role comes third and maps the
    role to the user aps-collector-user in the group system:masters.  The
    role binding gives that user the read-only collector role, but through
    the group the mapped identity is allowed what the role does not grant,
    for instance deleting pods. *)
Theorem scraper_identity_mapping (configBlob : string) (scope : App)
    (id : string) (props : option StackProps) :
  1 <= length (stackZones (Stack_new scope id props)) ->
  exists earlier st role mapping,
    run (firstn 4 (constructor_body configBlob)) (Stack_new scope id props)
    = Ok earlier
    /\ find "Cluster/AwsAuth" (node earlier)
       = Some (AwsAuth (Ref "Cluster")
                 [ ({| Iam.roleArn :=
                         GetAtt "Cluster/NodegroupDefaultCapacity/NodeGroupRole" "Arn" |},
                    Eks.nodeMapping);
                   ({| Iam.roleArn :=
                         GetAtt "Cluster/NodegroupManagedNodeGroup/NodeGroupRole" "Arn" |},
                    Eks.nodeMapping) ])
    /\ construct configBlob scope id props = Ok st
    /\ find "Cluster/AwsAuth" (node st)
       = Some (AwsAuth (Ref "Cluster")
                 [ ({| Iam.roleArn :=
                         GetAtt "Cluster/NodegroupDefaultCapacity/NodeGroupRole" "Arn" |},
                    Eks.nodeMapping);
                   ({| Iam.roleArn :=
                         GetAtt "Cluster/NodegroupManagedNodeGroup/NodeGroupRole" "Arn" |},
                    Eks.nodeMapping);
                   (role, mapping) ])
    /\ find "EKSScraperRole" (node st) = Some (ImportedRole (Iam.roleArn role))
    /\ Iam.roleArn role = modifiedArn (GetAtt "PrometheusScraper" "RoleArn")
    /\ Eks.username mapping = "aps-collector-user"
    /\ Eks.groups mapping = [ "system:masters" ]
    /\ find "Cluster/manifest-ApsCollectorClusterRole" (node st)
       = Some (KubernetesManifest (Ref "Cluster") [ clusterRoleManifest ])
    /\ find "Cluster/manifest-ApsCollectorClusterRoleBinding" (node st)
       = Some (KubernetesManifest (Ref "Cluster") [ clusterRoleBindingManifest ])
    /\ K8s.bindsUser clusterRoleBindingManifest (Eks.username mapping) = true
    /\ K8s.roleRef clusterRoleBindingManifest = K8s.nameOf clusterRoleManifest
    /\ (forall request,
          K8s.rbacAllows [ clusterRoleManifest ] [ clusterRoleBindingManifest ]
            (Eks.username mapping) request = true ->
          In (K8s.verbOf request) [ "describe"; "get"; "list"; "watch" ])
    /\ (forall request,
          K8s.authorized [ clusterRoleManifest ] [ clusterRoleBindingManifest ]
            mapping request = true)
    /\ K8s.rbacAllows [ clusterRoleManifest ] [ clusterRoleBindingManifest ]
         (Eks.username mapping) (K8s.ResourceRequest "delete" "" "pods" "" "")
       = false.
Proof.
  zone_cases; intros Hzones; simpl in Hzones; [lia| | |];
    do 4 eexists;
    (split; [vm_compute; reflexivity|]);
    (split; [reflexivity|]);
    (split; [vm_compute; reflexivity|]);
    do 9 (split; [reflexivity|]);
    (split; [|split; [reflexivity|reflexivity]]);
    intros request H; apply rbacAllows_collector in H;
    apply clusterRole_read_only; apply H.
Qed.

Lemma scraper_identity_mapping_witness :
  1 <= length (stackZones (Stack_new exampleApp "AmpAndGrafanaStack" (Some mainProps)))
  /\ exists st mappings mapping,
       construct exampleBlob exampleApp "AmpAndGrafanaStack" (Some mainProps) = Ok st
       /\ find "Cluster/AwsAuth" (node st) = Some (AwsAuth (Ref "Cluster") mappings)
       /\ map snd mappings = [ Eks.nodeMapping; Eks.nodeMapping; mapping ]
       /\ mapping = {| Eks.username := "aps-collector-user";
                       Eks.groups := [ "system:masters" ] |}.
Proof.
  split; [simpl; lia|].
  destruct (scraper_identity_mapping exampleBlob exampleApp "AmpAndGrafanaStack"
              (Some mainProps))
    as (earlier & st & role & mapping & _ & _ & Hst & Hauth & _ & _ & Hu & Hg & _);
    [simpl; lia|].
  exists st. eexists. exists mapping.
  split; [exact Hst|]. split; [exact Hauth|]. split; [reflexivity|].
  destruct mapping as [u g]. simpl in Hu, Hg. now subst.
Defined.

(* ------------------------------------------------------------------ *)
(** ** The scraper's subnets *)

Lemma filter_tagged (type type' : Ec2.SubnetType) (l : list Ec2.Subnet) :
  filter (fun e => Ec2.SubnetType_eqb (fst e) type) (map (pair type') l)
  = if Ec2.SubnetType_eqb type' type then map (pair type') l else [].
Proof.
  induction l as [|s l IH]; simpl.
  - now destruct (Ec2.SubnetType_eqb type' type).
  - rewrite IH. now destruct (Ec2.SubnetType_eqb type' type).
Qed.

(** The subnets of a type are the subnets tagged with the type, in any
    network. *)
Lemma subnetsOfType_ids (v : Ec2.Vpc) (type : Ec2.SubnetType) :
  map Ec2.subnetId (Ec2.subnetsOfType v type) = subnetIdsOfType v type.
Proof.
  unfold subnetIdsOfType, Ec2.taggedSubnets, Ec2.subnetsOfType.
  rewrite !filter_app, !filter_tagged, !map_app.
  destruct type; simpl; rewrite ?map_map, ?app_nil_r; reflexivity.
Qed.

(** Selecting by type returns these subnets when there are any and throws
    otherwise. *)
Lemma selectSubnets_by_type (v : Ec2.Vpc) (type : Ec2.SubnetType) :
  Ec2.selectSubnets v {| Ec2.subnetType := type |}
  = match Ec2.subnetsOfType v type with
    | [] => Err (NoSubnetGroups (Ec2.SubnetType_toString type))
    | found => Ok {| Ec2.subnets := found |}
    end.
Proof. reflexivity. Qed.

Lemma append_inj_l (a x y : string) : a ++ x = a ++ y -> x = y.
Proof.
  induction a as [|c a IH]; simpl; [tauto|].
  intros [= H]. now apply IH.
Qed.

(** The subnets of a group are one per zone and carry the group's name. *)
Lemma createSubnetResources_named (vpcPath : string)
    (cfg : Ec2.SubnetConfiguration) (zones : list Str) :
  forall (index : nat) (t t' : Tree) (created : list Ec2.Subnet),
    Vpc.createSubnetResources vpcPath cfg index zones t = Ok (created, t') ->
    length created = length zones
    /\ Forall (fun s => exists k,
                 Ec2.subnetId s
                 = Ref (vpcPath ++ "/" ++ Ec2.cfgName cfg ++ "Subnet" ++ k))
              created.
Proof.
  induction zones as [|zone zones IH]; intros index t t' created H.
  - injection H as <- _. split; [reflexivity | constructor].
  - cbn [Vpc.createSubnetResources] in H. unfold bind at 1 in H.
    destruct (addChild _ _ t) as [[[] t1]|e]; [|discriminate H].
    unfold bind at 1 in H.
    destruct (Vpc.createSubnetResources vpcPath cfg (S index) zones t1)
      as [[more t2]|e] eqn:E; [|discriminate H].
    injection H as <- _.
    destruct (IH _ _ _ _ E) as [Hlen Hall].
    split; [simpl; now rewrite Hlen|].
    constructor; [|assumption].
    exists (decimal (index + 1)). reflexivity.
Qed.

(** X16.  For every [maxAzs] and every zone list: a network that
    [new ec2.Vpc] returns has one private subnet with egress per zone it
    spans, and no public subnet shares an identifier with a private one. *)
Lemma Vpc_new_private_ids (stackZones : list Str) (id : string)
    (props : Ec2.VpcProps) (t t' : Tree) (v : Ec2.Vpc) :
  Vpc.new stackZones id props t = Ok (v, t') ->
  length (Ec2.privateSubnets v) = Nat.min (Ec2.maxAzs props) (length stackZones)
  /\ forall pub, In pub (Ec2.publicSubnets v) ->
                 ~ In (Ec2.subnetId pub)
                      (subnetIdsOfType v Ec2.PRIVATE_WITH_EGRESS).
Proof.
  intros H. unfold Vpc.new in H. unfold bind at 1 in H.
  destruct (addChild id _ t) as [[[] t1]|e]; [|discriminate H].
  cbn [Vpc.createSubnets Ec2.DEFAULT_SUBNETS] in H.
  unfold bind at 1 in H. cbn [Ec2.availabilityZones] in H.
  destruct (Vpc.createSubnetResources id _ 0 _ t1) as [[pubs t2]|e] eqn:Epub;
    [|discriminate H].
  cbn [Vpc.push Ec2.cfgSubnetType Ec2.availabilityZones] in H.
  unfold bind at 1 in H.
  destruct (Vpc.createSubnetResources id _ 0 _ t2) as [[privs t3]|e] eqn:Epriv;
    [|discriminate H].
  injection H as <- _.
  apply createSubnetResources_named in Epub, Epriv.
  destruct Epub as [_ Hpub], Epriv as [Hlen Hpriv].
  rewrite <- subnetsOfType_ids. simpl.
  split; [now rewrite Hlen, length_firstn|].
  intros pub Hin Hid.
  rewrite Forall_forall in Hpub, Hpriv.
  destruct (Hpub _ Hin) as [k Hk].
  apply in_map_iff in Hid. destruct Hid as (priv & Heq & Hin').
  destruct (Hpriv _ Hin') as [k' Hk'].
  rewrite Hk, Hk' in Heq. injection Heq as Heq.
  apply append_inj_l in Heq. discriminate Heq.
Qed.

Lemma Vpc_new_private_ids_witness :
  exists v t',
    Vpc.new [ Lit "a"; Lit "b"; Lit "c"; Lit "d" ] "Net"
      {| Ec2.maxAzs := 5; Ec2.enableDnsHostnames := true;
         Ec2.enableDnsSupport := true |} []
    = Ok (v, t')
    /\ length (Ec2.privateSubnets v) = 4
    /\ forall pub, In pub (Ec2.publicSubnets v) ->
                   ~ In (Ec2.subnetId pub)
                        (subnetIdsOfType v Ec2.PRIVATE_WITH_EGRESS).
Proof.
  do 2 eexists. split; [vm_compute; reflexivity|].
  eapply (Vpc_new_private_ids [ Lit "a"; Lit "b"; Lit "c"; Lit "d" ] "Net"
           {| Ec2.maxAzs := 5; Ec2.enableDnsHostnames := true;
              Ec2.enableDnsSupport := true |} []).
  vm_compute. reflexivity.
Defined.

(** C4.  When the stack has at least one availability zone, the network has
    one private subnet with egress per zone, at most three, and the subnet
    identifiers in the scraper's source configuration are exactly the
    identifiers of those subnets: the identifier of a subnet of the network
    is in the list if and only if the subnet is private with egress. *)
Theorem scraper_subnetIds_private_with_egress (configBlob : string)
    (scope : App) (id : string) (props : option StackProps) :
  1 <= length (stackZones (Stack_new scope id props)) ->
  exists st v p,
    construct configBlob scope id props = Ok st
    /\ vpc st = Some v
    /\ find "PrometheusScraper" (node st) = Some (ApsScraper p)
    /\ length (Ec2.availabilityZones v)
       = Nat.min 3 (length (stackZones (Stack_new scope id props)))
    /\ length (scraperSubnetIds p) = length (Ec2.availabilityZones v)
    /\ scraperSubnetIds p = subnetIdsOfType v Ec2.PRIVATE_WITH_EGRESS
    /\ forall type subnet,
         In (type, subnet) (Ec2.taggedSubnets v) ->
         (In (Ec2.subnetId subnet) (scraperSubnetIds p)
          <-> type = Ec2.PRIVATE_WITH_EGRESS).
Proof.
  zone_cases; intros Hzones; simpl in Hzones; [lia| | |];
    do 3 eexists;
    (split; [vm_compute; reflexivity|]);
    do 5 (split; [reflexivity|]);
    intros type subnet H; simpl in H;
    repeat (destruct H as [H|H]; [injection H as <- <-|]); try contradiction;
    simpl; split; intros H'; try reflexivity; try discriminate H';
    repeat (destruct H' as [H'|H']; [try discriminate H'|]);
    try contradiction; tauto.
Qed.

Lemma scraper_subnetIds_private_with_egress_witness :
  1 <= length (stackZones (Stack_new exampleApp "AmpAndGrafanaStack" (Some mainProps)))
  /\ exists st v p,
       construct exampleBlob exampleApp "AmpAndGrafanaStack" (Some mainProps) = Ok st
       /\ vpc st = Some v
       /\ find "PrometheusScraper" (node st) = Some (ApsScraper p)
       /\ length (Ec2.availabilityZones v)
          = Nat.min 3 (length (stackZones
                                 (Stack_new exampleApp "AmpAndGrafanaStack"
                                    (Some mainProps))))
       /\ length (scraperSubnetIds p) = length (Ec2.availabilityZones v)
       /\ scraperSubnetIds p = subnetIdsOfType v Ec2.PRIVATE_WITH_EGRESS
       /\ forall type subnet,
            In (type, subnet) (Ec2.taggedSubnets v) ->
            (In (Ec2.subnetId subnet) (scraperSubnetIds p)
             <-> type = Ec2.PRIVATE_WITH_EGRESS).
Proof.
  split; [simpl; lia|].
  apply (scraper_subnetIds_private_with_egress exampleBlob exampleApp
           "AmpAndGrafanaStack" (Some mainProps)).
  simpl; lia.
Defined.

(* ------------------------------------------------------------------ *)
(** ** What the template depends on *)





(* ------------------------------------------------------------------ *)
(** ** Order of declaration and order of provisioning *)

Lemma find_In (path : string) (r : Resource) (t : Tree) :
  find path t = Some r -> In (path, r) t.
Proof.
  induction t as [|[p r'] t IH]; simpl; [discriminate|].
  destruct (String.eqb p path) eqn:E.
  - apply String.eqb_eq in E. intros [= ->]. left. now subst.
  - intros H. right. now apply IH.
Qed.

Lemma schedulable_dep (template : Tree) (order : list string)
    (path d : string) (r : Resource) :
  schedulable template order = true ->
  find path template = Some r ->
  In d (deps r) ->
  before d path order = true.
Proof.
  unfold schedulable. intros H Hfind Hd.
  apply andb_prop in H. destruct H as [_ H].
  rewrite forallb_forall in H.
  specialize (H _ (find_In _ _ _ Hfind)). simpl in H.
  apply andb_prop in H. destruct H as [_ H].
  rewrite forallb_forall in H. now apply H.
Qed.

(** C7, as stated, fails: the definitions of the role and role-binding
    manifests refer to the cluster only, so there is an order that respects
    every reference of the template and submits both before the scraper. *)
Lemma rbac_manifests_before_scraper :
  exists template,
    synth exampleBlob exampleApp "AmpAndGrafanaStack" (Some mainProps)
    = Ok template
    /\ schedulable template exampleOrder = true
    /\ before "Cluster/manifest-ApsCollectorClusterRole" "PrometheusScraper"
         exampleOrder = true
    /\ before "Cluster/manifest-ApsCollectorClusterRoleBinding" "PrometheusScraper"
         exampleOrder = true
    /\ ~ (forall m, In m accessBindings ->
                    before "PrometheusScraper" m exampleOrder = true).
Proof.
  eexists. split; [vm_compute; reflexivity|].
  do 3 (split; [vm_compute; reflexivity|]).
  intros H.
  specialize (H "Cluster/manifest-ApsCollectorClusterRole" (or_introl eq_refl)).
  vm_compute in H. discriminate H.
Qed.

(** C7, amended.  With at least one availability zone: the role and the
    role-binding manifest are declared after the cluster and after the
    scraper, but their definitions refer to the cluster only.  The aws-auth
    resource, which holds the identity mappings, is declared with the node
    groups of the cluster, before the scraper; the entry for the scraper's
    role is added to it afterwards and makes it refer to the scraper.  So in
    every order in which the resources can be provisioned all three come
    after the cluster, and aws-auth, and only aws-auth, is bound to come
    after the scraper. *)
Theorem access_bindings_ordering (configBlob : string) (scope : App)
    (id : string) (props : option StackProps) :
  1 <= length (stackZones (Stack_new scope id props)) ->
  exists st,
    construct configBlob scope id props = Ok st
    /\ (forall m, In m accessBindings ->
          before "Cluster" m (paths (node st)) = true)
    /\ before "PrometheusScraper" "Cluster/manifest-ApsCollectorClusterRole"
         (paths (node st)) = true
    /\ before "PrometheusScraper" "Cluster/manifest-ApsCollectorClusterRoleBinding"
         (paths (node st)) = true
    /\ before "Cluster/AwsAuth" "PrometheusScraper" (paths (node st)) = true
    /\ (forall m r,
          In m [ "Cluster/manifest-ApsCollectorClusterRole";
                 "Cluster/manifest-ApsCollectorClusterRoleBinding" ] ->
          find m (node st) = Some r ->
          In "Cluster" (deps r) /\ ~ In "PrometheusScraper" (deps r))
    /\ (forall order,
          schedulable (resources (node st)) order = true ->
          (forall m, In m accessBindings -> before "Cluster" m order = true)
          /\ before "PrometheusScraper" "Cluster/AwsAuth" order = true).
Proof.
  zone_cases; intros Hzones; simpl in Hzones; [lia| | |];
    constructed;
    (split;
     [ intros m Hm; simpl in Hm;
       destruct Hm as [<-|[<-|[<-|[]]]]; vm_compute; reflexivity |]);
    do 3 (split; [vm_compute; reflexivity|]);
    (split;
     [ intros m r Hm Hr; simpl in Hm;
       destruct Hm as [<-|[<-|[]]]; vm_compute in Hr;
       injection Hr as <-;
       (split; [simpl; tauto|]);
       intros Hin; vm_compute in Hin; destruct Hin as [Hin|[]]; discriminate Hin
     | intros order Hs; split;
       [ intros m Hm; simpl in Hm; destruct Hm as [<-|[<-|[<-|[]]]] | ];
       (eapply schedulable_dep;
        [ exact Hs | vm_compute; reflexivity | simpl; tauto ]) ]).
Qed.

Lemma access_bindings_ordering_witness :
  1 <= length (stackZones (Stack_new exampleApp "AmpAndGrafanaStack" (Some mainProps)))
  /\ exists template,
       synth exampleBlob exampleApp "AmpAndGrafanaStack" (Some mainProps)
       = Ok template
       /\ schedulable template exampleOrder = true
       /\ (forall m, In m accessBindings -> before "Cluster" m exampleOrder = true)
       /\ before "PrometheusScraper" "Cluster/AwsAuth" exampleOrder = true.
Proof.
  split; [simpl; lia|].
  destruct (access_bindings_ordering exampleBlob exampleApp "AmpAndGrafanaStack"
              (Some mainProps))
    as (st & Hst & _ & _ & _ & _ & _ & Horder); [simpl; lia|].
  exists (resources (node st)).
  assert (E : st = match main exampleBlob exampleApp with
                   | Ok s => s
                   | Err _ => st
                   end).
  { unfold main. rewrite Hst. reflexivity. }
  assert (Hs : schedulable (resources (node st)) exampleOrder = true).
  { rewrite E. vm_compute. reflexivity. }
  split; [unfold synth; rewrite Hst; reflexivity|].
  split; [exact Hs|]. exact (Horder exampleOrder Hs).
Defined.

(* ------------------------------------------------------------------ *)
(** ** More on splitting and on the derived role reference *)

Lemma lacks_app (c : ascii) (a b : string) :
  Js.lacks c (a ++ b) = Js.lacks c a && Js.lacks c b.
Proof.
  induction a as [|x a IH]; simpl; [reflexivity|].
  now rewrite IH, andb_assoc.
Qed.

Lemma concat_cons (sep x : string) (l : list string) :
  l <> [] -> String.concat sep (x :: l) = x ++ sep ++ String.concat sep l.
Proof. destruct l; [congruence | reflexivity]. Qed.

Lemma split_from_char_join (c : ascii) (s : string) :
  forall cur,
    String.concat (String c "") (Js.split_from (String c "") 0 cur s) = cur ++ s.
Proof.
  induction s as [|a s IH]; intros cur.
  - simpl. now rewrite string_app_empty_r.
  - cbn [Js.split_from Js.startsWith String.length Nat.sub].
    destruct (Ascii.eqb c a) eqn:E; cbn [andb].
    + apply Ascii.eqb_eq in E. subst a.
      rewrite concat_cons by apply split_from_nonempty.
      now rewrite IH.
    + rewrite IH. now rewrite string_app_assoc.
Qed.

Lemma split_from_char_lacks (c : ascii) (s : string) :
  forall cur,
    Js.lacks c cur = true ->
    Forall (fun seg => Js.lacks c seg = true)
           (Js.split_from (String c "") 0 cur s).
Proof.
  induction s as [|a s IH]; intros cur Hcur.
  - simpl. now constructor.
  - cbn [Js.split_from Js.startsWith String.length Nat.sub].
    destruct (Ascii.eqb c a) eqn:E; cbn [andb].
    + constructor; [assumption | now apply IH].
    + apply IH. rewrite lacks_app, Hcur. simpl.
      rewrite Ascii.eqb_sym, E. reflexivity.
Qed.

(** X1.  Splitting at a one-character separator loses nothing: joining the
    segments with the separator gives the text back, and no segment contains
    the separator. *)
Theorem split_join_round_trip (c : ascii) (s : string) :
  String.concat (String c "") (Js.split (String c "") s) = s
  /\ Forall (fun seg => Js.lacks c seg = true) (Js.split (String c "") s).
Proof.
  unfold Js.split. split.
  - apply (split_from_char_join c s "").
  - now apply split_from_char_lacks.
Qed.

Lemma resolved_no_refs (v : Str) : isUnresolved v = false -> refs v = [].
Proof.
  induction v as [s|i|i a|i l|a IHa b IHb]; simpl; try discriminate; [reflexivity|].
  intros H. apply orb_false_elim in H. destruct H as [Ha Hb].
  now rewrite IHa, IHb.
Qed.

Lemma modifiedArn_unresolved (v : Str) :
  isUnresolved v = true ->
  modifiedArn v
  = Cat (Cat (FnSelect 0 (FnSplit "/" v)) (Lit "/")) (FnSelect 3 (FnSplit "/" v)).
Proof. intros H. unfold modifiedArn, Fn.split. now rewrite H. Qed.

Lemma modifiedArn_resolved (v : Str) :
  isUnresolved v = false ->
  exists first rest,
    Js.split "/" (chars v) = first :: rest
    /\ modifiedArn v
       = Lit (first ++ "/" ++ match rest with
                              | _ :: _ :: fourth :: _ => fourth
                              | _ => "undefined"
                              end).
Proof.
  intros H. unfold modifiedArn, Fn.split. rewrite H.
  destruct (split_slash_head (chars v)) as (first & rest & E).
  exists first, rest. split; [assumption|]. rewrite E.
  destruct rest as [|x1 [|x2 [|x3 rest]]]; simpl; now rewrite string_app_assoc.
Qed.

(** X2.  The derived role reference refers to exactly the resources the
    given role ARN refers to, whatever the ARN is: the transformation neither
    drops nor adds a dependency. *)
Theorem modifiedArn_keeps_references (attrRoleArn : Str) (logicalId : string) :
  In logicalId (refs (modifiedArn attrRoleArn)) <-> In logicalId (refs attrRoleArn).
Proof.
  destruct (isUnresolved attrRoleArn) eqn:E.
  - rewrite modifiedArn_unresolved by assumption. simpl.
    rewrite !in_app_iff. simpl. tauto.
  - destruct (modifiedArn_resolved attrRoleArn E) as (first & rest & _ & ->).
    rewrite (resolved_no_refs attrRoleArn E). reflexivity.
Qed.

(** X3.  On resolved text the derived reference always has exactly two
    segments: the first segment of the input and its fourth one, or the text
    [undefined] when there is no fourth.  Applied to its own result the
    transformation gives the first segment followed by [undefined]; so it
    gives its argument back exactly when the fourth segment is missing or is
    the text [undefined], and on an ARN of four segments or more it is not
    idempotent. *)
Theorem modifiedArn_yields_two_segments (attrRoleArn : Str) :
  isUnresolved attrRoleArn = false ->
  exists first last,
    hd_error (Js.split "/" (chars attrRoleArn)) = Some first
    /\ last = nth 3 (Js.split "/" (chars attrRoleArn)) "undefined"
    /\ modifiedArn attrRoleArn = Lit (first ++ "/" ++ last)
    /\ Js.split "/" (first ++ "/" ++ last) = [ first; last ]
    /\ modifiedArn (modifiedArn attrRoleArn) = Lit (first ++ "/undefined")
    /\ (modifiedArn (modifiedArn attrRoleArn) = modifiedArn attrRoleArn
        <-> last = "undefined").
Proof.
  intros H.
  destruct (modifiedArn_resolved attrRoleArn H) as (first & rest & E & Hm).
  pose proof (split_from_char_lacks "/" (chars attrRoleArn) "" eq_refl) as Hall.
  change (Js.split_from "/" 0 "" (chars attrRoleArn))
    with (Js.split "/" (chars attrRoleArn)) in Hall.
  rewrite E in Hall. inversion Hall as [|? ? Hfirst Hrest]; subst.
  set (last := match rest with
               | _ :: _ :: fourth :: _ => fourth
               | _ => "undefined"
               end) in *.
  assert (Hnth : last = nth 3 (first :: rest) "undefined").
  { subst last. destruct rest as [|x1 [|x2 [|x3 rest]]]; reflexivity. }
  assert (Hlast : Js.lacks "/" last = true).
  { subst last. destruct rest as [|x1 [|x2 [|x3 rest]]]; try reflexivity.
    inversion Hrest as [|? ? _ H2]; subst.
    inversion H2 as [|? ? _ H3]; subst.
    now inversion H3. }
  assert (Hsplit : Js.split "/" (first ++ "/" ++ last) = [ first; last ]).
  { unfold Js.split.
    rewrite (split_from_slash "" first) by assumption.
    now rewrite (split_from_lacks "" last) by assumption. }
  assert (Htwice : modifiedArn (Lit (first ++ "/" ++ last))
                   = Lit (first ++ "/undefined")).
  { unfold modifiedArn, Fn.split. cbn [isUnresolved chars].
    rewrite Hsplit. simpl. now rewrite string_app_assoc. }
  exists first, last.
  split; [now rewrite E|]. split; [now rewrite E|].
  split; [assumption|]. split; [assumption|].
  rewrite Hm, Htwice. split; [reflexivity|].
  split.
  - intros [= Heq]. apply append_inj_l in Heq.
    apply (append_inj_l "/") in Heq. now symmetry.
  - now intros ->.
Qed.

Lemma modifiedArn_yields_two_segments_witness :
  modifiedArn
    (modifiedArn (Lit "arn:aws:iam::123:role/aws-service-role/aps.amazonaws.com/Scraper_x"))
  = Lit "arn:aws:iam::123:role/undefined"
  /\ modifiedArn
       (modifiedArn (Lit "arn:aws:iam::123:role/aws-service-role/aps.amazonaws.com/Scraper_x"))
     <> modifiedArn (Lit "arn:aws:iam::123:role/aws-service-role/aps.amazonaws.com/Scraper_x").
Proof.
  destruct (modifiedArn_yields_two_segments
              (Lit "arn:aws:iam::123:role/aws-service-role/aps.amazonaws.com/Scraper_x")
              eq_refl)
    as (first & last & Hfirst & Hlast & _ & _ & Htwice & Hfixed).
  vm_compute in Hfirst. injection Hfirst as <-.
  vm_compute in Hlast. subst last.
  split; [exact Htwice|].
  intros E. apply Hfixed in E. discriminate E.
Defined.

(* ------------------------------------------------------------------ *)
(** ** The template as a whole *)

(** The zones of a stack are the names its app has for the environment or,
    without an environment, those of the fallback key or the first two of
    [Fn.getAzs()]; proofs that need to know what the zones refer to go
    through these shapes. *)
Ltac env_cases scope props :=
  unfold main, synth, construct, Stack_new; cbv zeta;
  destruct props as [[[e|]]|]; cbn [env]; cbv beta iota;
  [ generalize (zonesOf scope e);
    let l := fresh "l" in
    intros l; destruct l as [|? [|? [|? ?]]]
  | destruct (zonesFallback scope) as [l|]; [destruct l as [|? [|? [|? ?]]]|]
  | destruct (zonesFallback scope) as [l|]; [destruct l as [|? [|? [|? ?]]]|] ].

(** X4.  With at least one availability zone no two constructs share a path
    and the template has no dangling or circular reference: the order of
    declaration with the aws-auth resource moved to the end is an order the
    provisioning engine may follow.  The order of declaration itself is not:
    aws-auth is declared with the node groups of the cluster and refers to
    the scraper, which is declared later. *)
Theorem declaration_order_and_provisioning_order (configBlob : string)
    (scope : App) (id : string) (props : option StackProps) :
  1 <= length (stackZones (Stack_new scope id props)) ->
  exists st auth,
    construct configBlob scope id props = Ok st
    /\ distinct (paths (node st)) = true
    /\ schedulable (resources (node st))
         (awsAuthLast (paths (resources (node st)))) = true
    /\ schedulable (resources (node st)) (paths (resources (node st))) = false
    /\ find "Cluster/AwsAuth" (node st) = Some auth
    /\ In "PrometheusScraper" (deps auth)
    /\ before "Cluster/AwsAuth" "PrometheusScraper" (paths (resources (node st)))
       = true.
Proof.
  env_cases scope props; intros Hzones; simpl in Hzones; try lia;
    do 2 eexists; (split; [vm_compute; reflexivity|]);
    do 3 (split; [vm_compute; reflexivity|]);
    (split; [reflexivity|]);
    (split; [simpl; tauto | vm_compute; reflexivity]).
Qed.

Lemma declaration_order_and_provisioning_order_witness :
  1 <= length (stackZones (Stack_new exampleApp "AmpAndGrafanaStack" (Some mainProps)))
  /\ exists st,
       construct exampleBlob exampleApp "AmpAndGrafanaStack" (Some mainProps) = Ok st
       /\ distinct (paths (node st)) = true
       /\ schedulable (resources (node st))
            (awsAuthLast (paths (resources (node st)))) = true
       /\ schedulable (resources (node st)) (paths (resources (node st))) = false.
Proof.
  split; [simpl; lia|].
  destruct (declaration_order_and_provisioning_order exampleBlob exampleApp
              "AmpAndGrafanaStack" (Some mainProps))
    as (st & auth & Hst & Hd & Hs & Hn & _); [simpl; lia|].
  exists st. repeat split; assumption.
Defined.

(** X5.  The scraper writes to the metrics workspace the stack creates,
    reads from the stack's cluster and carries the scrape configuration
    unchanged.  It refers to the workspace, the cluster and the private
    subnets and to nothing else, so in every provisioning order it comes
    after the workspace and after the cluster. *)
Theorem scraper_wiring (configBlob : string) (scope : App) (id : string)
    (props : option StackProps) :
  1 <= length (stackZones (Stack_new scope id props)) ->
  exists st v p,
    construct configBlob scope id props = Ok st
    /\ vpc st = Some v
    /\ find "PrometheusWorkspace" (node st)
       = Some (ApsWorkspace {| Aps.alias := "my-prometheus-workspace" |})
    /\ find "PrometheusScraper" (node st) = Some (ApsScraper p)
    /\ Aps.workspaceArn (Aps.ampConfiguration (Aps.destination p))
       = GetAtt "PrometheusWorkspace" "Arn"
    /\ Aps.clusterArn (Aps.eksConfiguration (Aps.source p)) = GetAtt "Cluster" "Arn"
    /\ Aps.configurationBlob (Aps.scrapeConfiguration p) = configBlob
    /\ deps (ApsScraper p)
       = ("PrometheusWorkspace" :: "Cluster"
          :: flat_map (fun s => refs (Ec2.subnetId s)) (Ec2.privateSubnets v))%list
    /\ forall order,
         schedulable (resources (node st)) order = true ->
         before "PrometheusWorkspace" "PrometheusScraper" order = true
         /\ before "Cluster" "PrometheusScraper" order = true.
Proof.
  zone_cases; intros Hzones; simpl in Hzones; [lia| | |];
    do 3 eexists;
    (split; [vm_compute; reflexivity|]);
    do 7 (split; [reflexivity|]);
    intros order Hs; split;
    (eapply schedulable_dep;
     [ exact Hs | vm_compute; reflexivity | simpl; tauto ]).
Qed.

Lemma scraper_wiring_witness :
  1 <= length (stackZones (Stack_new exampleApp "AmpAndGrafanaStack" (Some mainProps)))
  /\ exists st p,
       construct exampleBlob exampleApp "AmpAndGrafanaStack" (Some mainProps) = Ok st
       /\ find "PrometheusScraper" (node st) = Some (ApsScraper p)
       /\ Aps.configurationBlob (Aps.scrapeConfiguration p) = exampleBlob
       /\ deps (ApsScraper p)
          = [ "PrometheusWorkspace"; "Cluster"; "VPC/PrivateSubnet1";
              "VPC/PrivateSubnet2"; "VPC/PrivateSubnet3" ].
Proof.
  split; [simpl; lia|].
  destruct (scraper_wiring exampleBlob exampleApp "AmpAndGrafanaStack" (Some mainProps))
    as (st & v & p & Hst & Hv & _ & Hp & _ & _ & Hblob & Hdeps & _);
    [simpl; lia|].
  exists st, p. repeat (split; [assumption|]).
  rewrite Hdeps. do 2 f_equal.
  assert (E : Some v = match main exampleBlob exampleApp with
                       | Ok s => vpc s
                       | Err _ => None
                       end).
  { unfold main. rewrite Hst. now symmetry. }
  vm_compute in E. injection E as ->. reflexivity.
Defined.

(** X6.  The scrape configuration reaches the template in one place only:
    two stacks built from different configurations and otherwise equal
    inputs have the same constructs, equal up to the scraper's
    configuration, which is the given text in each. *)
Theorem blob_only_in_scraper (blob1 blob2 : string) (scope : App)
    (id : string) (props : option StackProps) :
  1 <= length (stackZones (Stack_new scope id props)) ->
  exists st1 st2 p1 p2,
    construct blob1 scope id props = Ok st1
    /\ construct blob2 scope id props = Ok st2
    /\ map (fun e => (fst e, withoutBlob (snd e))) (node st1)
       = map (fun e => (fst e, withoutBlob (snd e))) (node st2)
    /\ find "PrometheusScraper" (node st1) = Some (ApsScraper p1)
    /\ find "PrometheusScraper" (node st2) = Some (ApsScraper p2)
    /\ Aps.configurationBlob (Aps.scrapeConfiguration p1) = blob1
    /\ Aps.configurationBlob (Aps.scrapeConfiguration p2) = blob2.
Proof.
  zone_cases; intros Hzones; simpl in Hzones; [lia| | |];
    do 4 eexists;
    (split; [vm_compute; reflexivity|]);
    (split; [vm_compute; reflexivity|]);
    repeat split; reflexivity.
Qed.

Lemma blob_only_in_scraper_witness :
  1 <= length (stackZones (Stack_new exampleApp "AmpAndGrafanaStack" (Some mainProps)))
  /\ exists st1 st2 p1 p2,
       construct exampleBlob exampleApp "AmpAndGrafanaStack" (Some mainProps) = Ok st1
       /\ construct "" exampleApp "AmpAndGrafanaStack" (Some mainProps) = Ok st2
       /\ map (fun e => (fst e, withoutBlob (snd e))) (node st1)
          = map (fun e => (fst e, withoutBlob (snd e))) (node st2)
       /\ find "PrometheusScraper" (node st1) = Some (ApsScraper p1)
       /\ find "PrometheusScraper" (node st2) = Some (ApsScraper p2)
       /\ Aps.configurationBlob (Aps.scrapeConfiguration p1) = exampleBlob
       /\ Aps.configurationBlob (Aps.scrapeConfiguration p2) = "".
Proof.
  split; [simpl; lia|].
  apply (blob_only_in_scraper exampleBlob "" exampleApp "AmpAndGrafanaStack"
           (Some mainProps)).
  simpl; lia.
Defined.

(** X7.  The network spans the first three zones of the stack, or all of
    them when there are fewer.  It has one public and one private subnet in
    each of these zones and no isolated subnet, and DNS support and DNS host
    names are switched on. *)
Theorem network_shape (configBlob : string) (scope : App) (id : string)
    (props : option StackProps) :
  1 <= length (stackZones (Stack_new scope id props)) ->
  exists st v,
    construct configBlob scope id props = Ok st
    /\ vpc st = Some v
    /\ find "VPC" (node st)
       = Some (CfnVPC {| Ec2.maxAzs := 3;
                         Ec2.enableDnsHostnames := true;
                         Ec2.enableDnsSupport := true |})
    /\ Ec2.availabilityZones v = firstn 3 (stackZones (Stack_new scope id props))
    /\ map Ec2.availabilityZone (Ec2.publicSubnets v) = Ec2.availabilityZones v
    /\ map Ec2.availabilityZone (Ec2.privateSubnets v) = Ec2.availabilityZones v
    /\ Ec2.isolatedSubnets v = []
    /\ forall path vpcId type zone,
         In (path, CfnSubnet vpcId type zone) (node st) ->
         vpcId = Ref "VPC"
         /\ In zone (Ec2.availabilityZones v)
         /\ exists subnet,
              In (type, subnet) (Ec2.taggedSubnets v)
              /\ Ec2.subnetId subnet = Ref path
              /\ Ec2.availabilityZone subnet = zone.
Proof.
  zone_cases; intros Hzones; simpl in Hzones; [lia| | |];
    do 2 eexists;
    (split; [vm_compute; reflexivity|]);
    do 6 (split; [reflexivity|]);
    intros path vpcId type zone H; simpl in H;
    repeat (destruct H as [H|H]; [try discriminate H|]); try contradiction;
    injection H as <- <- <- <-;
    (split; [reflexivity|]); (split; [simpl; tauto|]);
    eexists (Ec2.Build_Subnet _ _); (split; [|split; reflexivity]); simpl; tauto.
Qed.

Lemma network_shape_witness :
  1 <= length (stackZones (Stack_new exampleApp "AmpAndGrafanaStack" (Some mainProps)))
  /\ exists st v,
       construct exampleBlob exampleApp "AmpAndGrafanaStack" (Some mainProps) = Ok st
       /\ vpc st = Some v
       /\ map Ec2.availabilityZone (Ec2.publicSubnets v) = Ec2.availabilityZones v
       /\ map Ec2.availabilityZone (Ec2.privateSubnets v) = Ec2.availabilityZones v
       /\ Ec2.isolatedSubnets v = [].
Proof.
  split; [simpl; lia|].
  destruct (network_shape exampleBlob exampleApp "AmpAndGrafanaStack" (Some mainProps))
    as (st & v & Hst & Hv & _ & _ & Hpub & Hpriv & Hiso & _); [simpl; lia|].
  exists st, v. repeat split; assumption.
Defined.

(** X8.  Neither workspace interacts with the cluster or the network: the
    metrics workspace and the dashboard role refer to nothing, the dashboard
    workspace refers to its role only, and so the three can be provisioned
    before every other resource of the stack, in front of an order the
    engine may follow for the rest.  The dashboard workspace always has the
    same name, account access, sign-on provider, permission mode and plugin
    switch. *)
Theorem workspaces_stand_alone (configBlob : string) (scope : App)
    (id : string) (props : option StackProps) :
  1 <= length (stackZones (Stack_new scope id props)) ->
  exists st metrics role dashboard,
    construct configBlob scope id props = Ok st
    /\ find "PrometheusWorkspace" (node st) = Some metrics
    /\ find "GrafanaRole" (node st) = Some role
    /\ find "GrafanaWorkspace" (node st)
       = Some (GrafanaWorkspace
                 {| Grafana.name := "my-grafana-workspace";
                    Grafana.accountAccessType := "CURRENT_ACCOUNT";
                    Grafana.authenticationProviders := [ "AWS_SSO" ];
                    Grafana.permissionType := "SERVICE_MANAGED";
                    Grafana.roleArn := GetAtt "GrafanaRole" "Arn";
                    Grafana.pluginAdminEnabled := true |})
    /\ find "GrafanaWorkspace" (node st) = Some dashboard
    /\ deps metrics = []
    /\ deps role = []
    /\ deps dashboard = [ "GrafanaRole" ]
    /\ schedulable (resources (node st))
         (awsAuthLast (paths (resources (node st)))) = true
    /\ schedulable (resources (node st))
         (workspacesFirst (awsAuthLast (paths (resources (node st))))) = true.
Proof.
  env_cases scope props; intros Hzones; simpl in Hzones; try lia;
    do 4 eexists;
    (split; [vm_compute; reflexivity|]);
    do 7 (split; [reflexivity|]);
    split; vm_compute; reflexivity.
Qed.

Lemma workspaces_stand_alone_witness :
  1 <= length (stackZones (Stack_new exampleApp "AmpAndGrafanaStack" (Some mainProps)))
  /\ exists st,
       construct exampleBlob exampleApp "AmpAndGrafanaStack" (Some mainProps) = Ok st
       /\ schedulable (resources (node st))
            (workspacesFirst (awsAuthLast (paths (resources (node st))))) = true.
Proof.
  split; [simpl; lia|].
  destruct (workspaces_stand_alone exampleBlob exampleApp "AmpAndGrafanaStack"
              (Some mainProps))
    as (st & _ & _ & _ & Hst & _ & _ & _ & _ & _ & _ & _ & _ & Hs); [simpl; lia|].
  exists st. split; assumption.
Defined.

(** X9.  A stack created without an environment takes its zones from the
    fallback key of the app's context and, when the key is not set, spans
    exactly two zones, the first two the region reports at deployment.  The
    network spans the first three of these zones and the scraper gets one
    private subnet for each; without the key these are two subnets. *)
Theorem environment_agnostic_stack (configBlob : string) (scope : App)
    (id : string) (props : option StackProps) :
  match props with Some p => env p | None => None end = None ->
  1 <= length (stackZones (Stack_new scope id props)) ->
  exists st v p,
    construct configBlob scope id props = Ok st
    /\ environment st = None
    /\ stackZones st
       = match zonesFallback scope with
         | Some zones => map Lit zones
         | None => [ FnSelect 0 FnGetAZs; FnSelect 1 FnGetAZs ]
         end
    /\ vpc st = Some v
    /\ Ec2.availabilityZones v = firstn 3 (stackZones st)
    /\ find "PrometheusScraper" (node st) = Some (ApsScraper p)
    /\ length (scraperSubnetIds p) = length (Ec2.availabilityZones v)
    /\ (zonesFallback scope = None ->
        Ec2.availabilityZones v = [ FnSelect 0 FnGetAZs; FnSelect 1 FnGetAZs ]
        /\ scraperSubnetIds p
           = [ Ref "VPC/PrivateSubnet1"; Ref "VPC/PrivateSubnet2" ]).
Proof.
  intros Henv.
  destruct props as [[[e|]]|]; try discriminate Henv;
    unfold construct, Stack_new; cbv zeta; cbn [env]; cbv beta iota;
    (destruct (zonesFallback scope) as [l|]; [destruct l as [|? [|? [|? ?]]]|]);
    intros Hzones; simpl in Hzones; try lia;
    do 3 eexists; (split; [vm_compute; reflexivity|]);
    do 6 (split; [reflexivity|]);
    intros Hkey; try discriminate Hkey; split; reflexivity.
Qed.

Lemma environment_agnostic_stack_witness :
  1 <= length (stackZones (Stack_new exampleFallbackApp "AmpAndGrafanaStack" None))
  /\ exists st v p,
       construct exampleBlob exampleFallbackApp "AmpAndGrafanaStack" None = Ok st
       /\ vpc st = Some v
       /\ Ec2.availabilityZones v
          = map Lit [ "eu-west-1a"; "eu-west-1b"; "eu-west-1c" ]
       /\ find "PrometheusScraper" (node st) = Some (ApsScraper p)
       /\ length (scraperSubnetIds p) = 3.
Proof.
  split; [simpl; lia|].
  destruct (environment_agnostic_stack exampleBlob exampleFallbackApp
              "AmpAndGrafanaStack" None)
    as (st & v & p & Hst & _ & Hz & Hv & Hzones & Hp & Hlen & _);
    [reflexivity | simpl; lia |].
  exists st, v, p.
  split; [exact Hst|]. split; [exact Hv|].
  rewrite Hlen, Hzones, Hz.
  split; [reflexivity|]. split; [exact Hp | reflexivity].
Defined.

(** X10.  The program of bin/index.ts creates the stack AmpAndGrafanaStack
    in account 114043003553, region us-east-1.  Its network spans the first
    three zones the app's context has for that environment, as resolved zone
    names, and the scraper gets one private subnet per zone. *)
Theorem main_creates_stack_in_fixed_environment (configBlob : string) (app : App) :
  1 <= length (zonesOf app {| account := "114043003553"; region := "us-east-1" |}) ->
  exists st v p,
    main configBlob app = Ok st
    /\ stackName st = "AmpAndGrafanaStack"
    /\ environment st
       = Some {| account := "114043003553"; region := "us-east-1" |}
    /\ vpc st = Some v
    /\ Ec2.availabilityZones v
       = map Lit (firstn 3 (zonesOf app {| account := "114043003553";
                                           region := "us-east-1" |}))
    /\ Forall (fun zone => isUnresolved zone = false) (Ec2.availabilityZones v)
    /\ find "PrometheusScraper" (node st) = Some (ApsScraper p)
    /\ length (scraperSubnetIds p)
       = Nat.min 3 (length (zonesOf app {| account := "114043003553";
                                           region := "us-east-1" |})).
Proof.
  unfold main, mainProps, construct, Stack_new; cbv zeta beta iota; cbn [env].
  generalize (zonesOf app {| account := "114043003553"; region := "us-east-1" |}).
  intros l Hzones.
  destruct l as [|a [|b [|c rest]]]; simpl in Hzones; [lia| | |];
    do 3 eexists; (split; [vm_compute; reflexivity|]);
    do 4 (split; [reflexivity|]);
    (split; [repeat constructor|]); split; reflexivity.
Qed.

Lemma main_creates_stack_in_fixed_environment_witness :
  1 <= length (zonesOf exampleApp {| account := "114043003553"; region := "us-east-1" |})
  /\ exists st,
       main exampleBlob exampleApp = Ok st
       /\ stackName st = "AmpAndGrafanaStack".
Proof.
  split; [simpl; lia|].
  destruct (main_creates_stack_in_fixed_environment exampleBlob exampleApp)
    as (st & _ & _ & Hst & Hname & _); [simpl; lia|].
  exists st. split; assumption.
Defined.

(* ------------------------------------------------------------------ *)
(** ** The construct tree only grows *)

Lemma bind_Ok {S A B : Type} (m : St S A) (k : A -> St S B) (s s'' : S) (b : B) :
  bind m k s = Ok (b, s'') ->
  exists a s', m s = Ok (a, s') /\ k a s' = Ok (b, s'').
Proof.
  unfold bind. destruct (m s) as [[a s']|e]; [|discriminate].
  intros H. now exists a, s'.
Qed.

Lemma extends_refl (t : Tree) : extends t t.
Proof. exists []. now rewrite app_nil_r. Qed.

Lemma extends_trans (t1 t2 t3 : Tree) :
  extends t1 t2 -> extends t2 t3 -> extends t1 t3.
Proof.
  intros [a Ha] [b Hb]. exists (a ++ b)%list.
  now rewrite Hb, Ha, app_assoc.
Qed.

Lemma hasPath_In (path : string) (t : Tree) :
  hasPath path t = true <-> In path (paths t).
Proof.
  unfold hasPath, paths. rewrite existsb_exists, in_map_iff.
  split; intros ([p r] & H1 & H2); exists (p, r); simpl in *.
  - apply String.eqb_eq in H2. now split.
  - split; [assumption|]. now apply String.eqb_eq.
Qed.

Lemma extends_hasPath (t t' : Tree) (path : string) :
  extends t t' -> hasPath path t = true -> hasPath path t' = true.
Proof.
  intros [added E]. rewrite !hasPath_In, E, in_app_iff. tauto.
Qed.

Lemma addChild_Ok (path : string) (r : Resource) (t t' : Tree) (u : unit) :
  addChild path r t = Ok (u, t') ->
  hasPath path t = false /\ t' = (t ++ [(path, r)])%list.
Proof.
  unfold addChild. destruct (hasPath path t); [discriminate|].
  intros [= _ <-]. now split.
Qed.

Lemma addChild_duplicate (path : string) (r : Resource) (t : Tree) :
  hasPath path t = true -> addChild path r t = Err (DuplicateConstruct path).
Proof. unfold addChild. now intros ->. Qed.

Lemma GrowsTree_ret {A : Type} (a : A) : GrowsTree (ret a).
Proof. intros t x t' [= _ <-]. split; [apply extends_refl | tauto]. Qed.

Lemma GrowsTree_bind {A B : Type} (m : St Tree A) (k : A -> St Tree B) :
  GrowsTree m -> (forall a, GrowsTree (k a)) -> GrowsTree (bind m k).
Proof.
  intros Hm Hk t b t'' H.
  apply bind_Ok in H. destruct H as (a & t' & H1 & H2).
  destruct (Hm _ _ _ H1) as [E1 N1], (Hk _ _ _ _ H2) as [E2 N2].
  split; [now apply extends_trans with t' | tauto].
Qed.

Lemma GrowsTree_addChild (path : string) (r : Resource) :
  GrowsTree (addChild path r).
Proof.
  intros t u t' H. apply addChild_Ok in H. destruct H as [Hfree ->].
  assert (E : paths (t ++ [(path, r)])%list = (paths t ++ [path])%list)
    by (unfold paths; now rewrite map_app).
  split.
  - now exists [path].
  - intros Hnd. rewrite E.
    apply NoDup_app; [assumption | repeat constructor; tauto |].
    intros x Hx [<-|[]].
    apply hasPath_In in Hx. congruence.
Qed.

Lemma GrowsTree_createSubnetResources (vpcPath : string)
    (cfg : Ec2.SubnetConfiguration) (zones : list Str) :
  forall index, GrowsTree (Vpc.createSubnetResources vpcPath cfg index zones).
Proof.
  induction zones as [|zone zones IH]; intros index; cbn [Vpc.createSubnetResources].
  - apply GrowsTree_ret.
  - apply GrowsTree_bind; [apply GrowsTree_addChild|]. intros _.
    apply GrowsTree_bind; [apply IH|]. intros more. apply GrowsTree_ret.
Qed.

Lemma GrowsTree_createSubnets (vpcPath : string)
    (cfgs : list Ec2.SubnetConfiguration) :
  forall v, GrowsTree (Vpc.createSubnets vpcPath cfgs v).
Proof.
  induction cfgs as [|cfg cfgs IH]; intros v; cbn [Vpc.createSubnets].
  - apply GrowsTree_ret.
  - apply GrowsTree_bind; [apply GrowsTree_createSubnetResources|].
    intros created. apply IH.
Qed.

Lemma GrowsTree_Vpc_new (zones : list Str) (id : string) (props : Ec2.VpcProps) :
  GrowsTree (Vpc.new zones id props).
Proof.
  unfold Vpc.new. apply GrowsTree_bind; [apply GrowsTree_addChild|].
  intros _. apply GrowsTree_createSubnets.
Qed.

Lemma paths_pushRoleMapping (path : string)
    (entry : Iam.IRole * Eks.AwsAuthMapping) (t : Tree) :
  paths (Cluster.pushRoleMapping path entry t) = paths t.
Proof.
  induction t as [|[p r] t IH]; simpl; [reflexivity|].
  destruct (String.eqb p path).
  - now destruct r.
  - simpl. now rewrite IH.
Qed.

Lemma GrowsTree_awsAuth_addRoleMapping (c : Eks.Cluster) (role : Iam.IRole)
    (mapping : Eks.AwsAuthMapping) :
  GrowsTree (Cluster.awsAuth_addRoleMapping c role mapping).
Proof.
  intros t u t' H. unfold Cluster.awsAuth_addRoleMapping in H.
  destruct (find (Eks.clusterPath c ++ "/AwsAuth") t) as [r|].
  - destruct r; try discriminate H. injection H as _ Ht. subst t'.
    unfold extends. rewrite paths_pushRoleMapping.
    split; [apply extends_refl | tauto].
  - now apply GrowsTree_addChild in H.
Qed.

Lemma GrowsTree_claim (path : string) : GrowsTree (claim path).
Proof.
  intros t u t' H. unfold claim in H.
  destruct (hasPath path t); [discriminate H|].
  injection H as _ <-. split; [apply extends_refl | tauto].
Qed.

Lemma GrowsTree_lift {A : Type} (r : Result A) : GrowsTree (lift r).
Proof.
  intros t a t' H. unfold lift in H. destruct r; [|discriminate H].
  injection H as _ <-. split; [apply extends_refl | tauto].
Qed.

Lemma GrowsTree_checkSizes (sizes : Eks.ScalingConfig) :
  GrowsTree (Cluster.checkSizes sizes).
Proof.
  intros t u t' H. unfold Cluster.checkSizes in H.
  destruct (_ || _); [discriminate H|].
  injection H as _ <-. split; [apply extends_refl | tauto].
Qed.

Ltac grows_tree :=
  repeat first
    [ apply GrowsTree_awsAuth_addRoleMapping
    | apply GrowsTree_claim
    | apply GrowsTree_lift
    | apply GrowsTree_checkSizes
    | apply GrowsTree_bind; [|intros ?]
    | apply GrowsTree_ret
    | apply GrowsTree_addChild ].

Lemma GrowsTree_addNodegroupCapacity (c : Eks.Cluster) (id : string)
    (options : Eks.NodegroupOptions) :
  GrowsTree (Cluster.addNodegroupCapacity c id options).
Proof.
  unfold Cluster.addNodegroupCapacity, Role.new. cbv zeta. grows_tree.
Qed.

Lemma GrowsTree_Cluster_new (zones : list Str) (id : string)
    (props : Eks.ClusterProps) :
  GrowsTree (Cluster.new zones id props).
Proof.
  unfold Cluster.new, Role.new. cbv zeta.
  apply GrowsTree_bind; [apply GrowsTree_claim|]. intros _.
  apply GrowsTree_bind;
    [destruct (Eks.vpc props); [apply GrowsTree_ret | apply GrowsTree_Vpc_new]|].
  intros network.
  grows_tree.
  unfold Cluster.addDefaultCapacity. cbv zeta.
  destruct (match Eks.defaultCapacity _ with Some n => n | None => _ end);
    [apply GrowsTree_ret | apply GrowsTree_addNodegroupCapacity].
Qed.

Lemma GrowsTree_library :
  (forall id, GrowsTree (KubectlV30Layer.new id))
  /\ (forall zones id props, GrowsTree (Cluster.new zones id props))
  /\ (forall c id options, GrowsTree (Cluster.addNodegroupCapacity c id options))
  /\ (forall c id manifest, GrowsTree (Cluster.addManifest c id manifest))
  /\ (forall id props, GrowsTree (Role.new id props))
  /\ (forall id arn, GrowsTree (Role.fromRoleArn id arn))
  /\ (forall id props, GrowsTree (CfnWorkspace.new id props))
  /\ (forall id props, GrowsTree (CfnScraper.new id props))
  /\ (forall id props, GrowsTree (GrafanaWorkspace.new id props)).
Proof.
  repeat apply conj; intros;
    try apply GrowsTree_Cluster_new; try apply GrowsTree_addNodegroupCapacity;
    unfold KubectlV30Layer.new, Cluster.addManifest, Role.new, Role.fromRoleArn,
      CfnWorkspace.new, CfnScraper.new, GrafanaWorkspace.new;
    grows_tree.
Qed.

Lemma Grows_ret {A : Type} (a : A) : Grows (ret a).
Proof. intros st x st' [= _ <-]. split; [apply extends_refl | tauto]. Qed.

Lemma Grows_bind {A B : Type} (m : St Stack A) (k : A -> St Stack B) :
  Grows m -> (forall a, Grows (k a)) -> Grows (bind m k).
Proof.
  intros Hm Hk st b st'' H.
  apply bind_Ok in H. destruct H as (a & st' & H1 & H2).
  destruct (Hm _ _ _ H1) as [E1 N1], (Hk _ _ _ _ H2) as [E2 N2].
  split; [now apply extends_trans with (node st') | tauto].
Qed.

Lemma Grows_this {A : Type} (name : string) (field : Stack -> option A) :
  Grows (this name field).
Proof.
  intros st a st' H. unfold this in H.
  destruct (field st); [|discriminate]. injection H as _ <-.
  split; [apply extends_refl | tauto].
Qed.

Lemma Grows_peek {A : Type} (field : Stack -> A) : Grows (peek field).
Proof. intros st a st' [= _ <-]. split; [apply extends_refl | tauto]. Qed.

Lemma Grows_lift {A : Type} (r : Result A) : Grows (lift r).
Proof.
  intros st a st' H. unfold lift in H. destruct r; [|discriminate H].
  injection H as _ <-. split; [apply extends_refl | tauto].
Qed.

Lemma Grows_inScope {A : Type} (m : St Tree A) :
  GrowsTree m -> Grows (inScope m).
Proof.
  intros Hm st a st' H. unfold inScope in H.
  destruct (m (node st)) as [[x t]|e] eqn:E; [|discriminate].
  injection H as _ <-. simpl. now apply Hm in E.
Qed.

Lemma Grows_setters :
  (forall v, Grows (set_vpc v))
  /\ (forall c, Grows (set_cluster c))
  /\ (forall w, Grows (set_prometheusWorkspace w))
  /\ (forall s, Grows (set_prometheusScraper s)).
Proof.
  repeat apply conj; intros x st a st' H; injection H as _ Hst; subst st'; simpl;
    (split; [apply extends_refl | tauto]).
Qed.

Ltac grows :=
  repeat first
    [ apply Grows_bind; [|intros ?]
    | apply Grows_this
    | apply Grows_peek
    | apply Grows_lift
    | apply Grows_ret
    | apply Grows_inScope
    | apply Grows_setters
    | apply GrowsTree_library
    | apply GrowsTree_Vpc_new
    | apply GrowsTree_awsAuth_addRoleMapping ].

Lemma Grows_createVPC : Grows createVPC.
Proof.
  intros st v st' H. unfold createVPC in H.
  now apply (Grows_inScope _ (GrowsTree_Vpc_new _ _ _)) in H.
Qed.

Lemma Grows_constructor_body (configBlob : string) :
  Forall (fun stmt => Grows stmt) (constructor_body configBlob).
Proof.
  unfold constructor_body, createEKSCluster, createPrometheusWorkspace,
    createPromehtheusScraper, createPrometheusScraperRoleBinding,
    createGrafanaWorkspace.
  repeat (apply Forall_cons;
          [cbv zeta; grows; try apply Grows_createVPC|]).
  apply Forall_nil.
Qed.

Lemma run_grows (body : list (St Stack unit)) :
  Forall (fun stmt => Grows stmt) body ->
  forall st st',
    run body st = Ok st' ->
    extends (node st) (node st')
    /\ (NoDup (paths (node st)) -> NoDup (paths (node st'))).
Proof.
  induction 1 as [|stmt rest Hstmt _ IH]; intros st st' H; simpl in H.
  - injection H as <-. split; [apply extends_refl | tauto].
  - destruct (stmt st) as [[[] s1]|e] eqn:E; [|discriminate].
    destruct (Hstmt _ _ _ E) as [E1 N1], (IH _ _ H) as [E2 N2].
    split; [now apply extends_trans with (node s1) | tauto].
Qed.

(** X11.  Run on any stack, also one that already holds constructs, the
    constructor only adds: when it returns, the constructs that were there
    are still there, under the same paths and in the same order, followed by
    the new ones; and if the paths were distinct before, they still are. *)
Theorem constructor_only_adds (configBlob : string) (st st' : Stack) :
  run (constructor_body configBlob) st = Ok st' ->
  (exists added, paths (node st') = (paths (node st) ++ added)%list)
  /\ (NoDup (paths (node st)) -> NoDup (paths (node st'))).
Proof. apply run_grows, Grows_constructor_body. Qed.

Lemma constructor_only_adds_witness :
  exists st',
    run (constructor_body exampleBlob) exampleOccupiedStack = Ok st'
    /\ (exists added,
          paths (node st') = (paths (node exampleOccupiedStack) ++ added)%list)
    /\ (NoDup (paths (node exampleOccupiedStack)) -> NoDup (paths (node st'))).
Proof.
  eexists. split; [vm_compute; reflexivity|].
  apply (constructor_only_adds exampleBlob exampleOccupiedStack).
  vm_compute; reflexivity.
Defined.

(* ------------------------------------------------------------------ *)
(** ** Running a statement of the constructor twice *)

Lemma this_Some {A B : Type} (name : string) (field : Stack -> option A)
    (k : A -> St Stack B) (st : Stack) (a : A) :
  field st = Some a -> bind (this name field) k st = k a st.
Proof. intros H. unfold bind, this. now rewrite H. Qed.

Lemma this_Ok {A : Type} (name : string) (field : Stack -> option A)
    (st st' : Stack) (a : A) :
  this name field st = Ok (a, st') -> field st = Some a /\ st' = st.
Proof.
  unfold this. destruct (field st); [|discriminate].
  intros H. injection H as -> ->. now split.
Qed.

Lemma inScope_Ok {A : Type} (m : St Tree A) (st st' : Stack) (a : A) :
  inScope m st = Ok (a, st') ->
  exists t', m (node st) = Ok (a, t') /\ st' = set_node t' st.
Proof.
  unfold inScope. destruct (m (node st)) as [[x t]|e]; [|discriminate].
  intros H. injection H as -> <-. now exists t.
Qed.

Lemma lift_Ok {S A : Type} (r : Result A) (s s' : S) (a : A) :
  lift r s = Ok (a, s') -> r = Ok a /\ s' = s.
Proof.
  unfold lift. destruct r; [|discriminate].
  intros H. injection H as -> ->. now split.
Qed.

Lemma lift_Some {S A B : Type} (r : Result A) (k : A -> St S B) (s : S) (a : A) :
  r = Ok a -> bind (lift r) k s = k a s.
Proof. intros ->. reflexivity. Qed.

Lemma KeepsFields_ret {A : Type} (a : A) : KeepsFields (ret a).
Proof. intros st x st' H. injection H as _ <-. now repeat split. Qed.

Lemma KeepsFields_bind {A B : Type} (m : St Stack A) (k : A -> St Stack B) :
  KeepsFields m -> (forall a, KeepsFields (k a)) -> KeepsFields (bind m k).
Proof.
  intros Hm Hk st b st'' H.
  apply bind_Ok in H. destruct H as (a & st' & H1 & H2).
  destruct (Hm _ _ _ H1) as (E1 & E2 & E3 & E4).
  destruct (Hk _ _ _ _ H2) as (F1 & F2 & F3 & F4).
  repeat split; congruence.
Qed.

Lemma KeepsFields_this {A : Type} (name : string) (field : Stack -> option A) :
  KeepsFields (this name field).
Proof.
  intros st a st' H. apply this_Ok in H. destruct H as [_ ->]. now repeat split.
Qed.

Lemma KeepsFields_peek {A : Type} (field : Stack -> A) : KeepsFields (peek field).
Proof. intros st a st' H. injection H as _ <-. now repeat split. Qed.

Lemma KeepsFields_lift {A : Type} (r : Result A) : KeepsFields (lift r).
Proof.
  intros st a st' H. apply lift_Ok in H. destruct H as [_ ->]. now repeat split.
Qed.

Lemma KeepsFields_inScope {A : Type} (m : St Tree A) : KeepsFields (inScope m).
Proof.
  intros st a st' H. apply inScope_Ok in H. destruct H as (t & _ & ->).
  now repeat split.
Qed.

Ltac keeps :=
  repeat first
    [ apply KeepsFields_bind; [|intros ?]
    | apply KeepsFields_this
    | apply KeepsFields_peek
    | apply KeepsFields_lift
    | apply KeepsFields_ret
    | apply KeepsFields_inScope ].

(** The methods create constructs and leave the assignment of the fields to
    the constructor. *)
Lemma methods_keep_fields (configBlob : string) :
  KeepsFields createVPC
  /\ KeepsFields createEKSCluster
  /\ KeepsFields createPrometheusWorkspace
  /\ KeepsFields (createPromehtheusScraper configBlob)
  /\ KeepsFields createPrometheusScraperRoleBinding
  /\ KeepsFields createGrafanaWorkspace.
Proof.
  repeat apply conj;
    unfold createEKSCluster, createPrometheusWorkspace, createPromehtheusScraper,
      createPrometheusScraperRoleBinding, createGrafanaWorkspace;
    cbv zeta; keeps.
  intros st v st' H. unfold createVPC in H.
  now apply KeepsFields_inScope in H.
Qed.

Lemma Creates_addChild (path : string) (r : Resource) :
  Creates path (addChild path r).
Proof.
  intros t u t' H. apply addChild_Ok in H. destruct H as [_ ->].
  apply hasPath_In. unfold paths. rewrite map_app, in_app_iff. simpl. tauto.
Qed.

Lemma Refuses_addChild (path : string) (r : Resource) :
  Refuses path (addChild path r).
Proof. intros t H. now apply addChild_duplicate. Qed.

Lemma Creates_bind {A : Type} (path : string) (r : Resource)
    (rest : unit -> St Tree A) :
  (forall u, GrowsTree (rest u)) -> Creates path (bind (addChild path r) rest).
Proof.
  intros Hrest t a t' H.
  apply bind_Ok in H. destruct H as (u & t1 & H1 & H2).
  apply Creates_addChild in H1.
  destruct (Hrest _ _ _ _ H2) as [E _].
  now apply (extends_hasPath t1).
Qed.

Lemma Refuses_bind {A : Type} (path : string) (r : Resource)
    (rest : unit -> St Tree A) :
  Refuses path (bind (addChild path r) rest).
Proof. intros t H. unfold bind. now rewrite addChild_duplicate. Qed.

(** A method whose first library call creates [path]: after the method the
    path is taken, and on a stack where it is taken the method throws. *)
Lemma inScope_creates {A B : Type} (path : string) (m : St Tree A)
    (k : A -> St Stack B) (st st' : Stack) (b : B) :
  Creates path m -> (forall a, Grows (k a)) ->
  bind (inScope m) k st = Ok (b, st') ->
  hasPath path (node st') = true.
Proof.
  intros Hm Hk H.
  apply bind_Ok in H. destruct H as (a & s1 & H1 & H2).
  apply inScope_Ok in H1. destruct H1 as (t & H1 & ->).
  apply Hm in H1. destruct (Hk _ _ _ _ H2) as [E _].
  now apply (extends_hasPath t).
Qed.

Lemma inScope_refuses {A B : Type} (path : string) (m : St Tree A)
    (k : A -> St Stack B) (st : Stack) :
  Refuses path m -> hasPath path (node st) = true ->
  bind (inScope m) k st = Err (DuplicateConstruct path).
Proof. intros Hm H. unfold bind, inScope. now rewrite (Hm _ H). Qed.

Lemma set_field_node :
  (forall v st u st', set_vpc v st = Ok (u, st') -> node st' = node st)
  /\ (forall c st u st', set_cluster c st = Ok (u, st') -> node st' = node st)
  /\ (forall w st u st',
        set_prometheusWorkspace w st = Ok (u, st') -> node st' = node st)
  /\ (forall s st u st',
        set_prometheusScraper s st = Ok (u, st') ->
        node st' = node st
        /\ vpc st' = vpc st
        /\ cluster st' = cluster st
        /\ prometheusWorkspace st' = prometheusWorkspace st).
Proof.
  repeat apply conj; intros x st u st' H; injection H as _ Hst; subst st';
    repeat split; reflexivity.
Qed.

Lemma rerun_createVPC (st st' : Stack) :
  (v <- createVPC ;; set_vpc v) st = Ok (tt, st') ->
  (v <- createVPC ;; set_vpc v) st' = Err (DuplicateConstruct "VPC").
Proof.
  intros H.
  assert (Hp : hasPath "VPC" (node st') = true).
  { apply bind_Ok in H. destruct H as (v & s1 & H1 & H2).
    apply set_field_node in H2. rewrite H2.
    unfold createVPC in H1. apply inScope_Ok in H1. destruct H1 as (t & H1 & ->).
    unfold Vpc.new in H1. apply Creates_bind in H1; [exact H1|].
    intros _. apply GrowsTree_createSubnets. }
  unfold bind at 1. unfold createVPC, inScope, Vpc.new, bind.
  now rewrite addChild_duplicate.
Qed.

Lemma rerun_createEKSCluster (st st' : Stack) :
  (c <- createEKSCluster ;; set_cluster c) st = Ok (tt, st') ->
  (c <- createEKSCluster ;; set_cluster c) st'
  = Err (DuplicateConstruct "KubectlLayer").
Proof.
  intros H.
  assert (Hp : hasPath "KubectlLayer" (node st') = true).
  { apply bind_Ok in H. destruct H as (c & s1 & H1 & H2).
    apply set_field_node in H2. rewrite H2.
    unfold createEKSCluster in H1.
    apply (inScope_creates "KubectlLayer") in H1; [exact H1| |intros; grows].
    unfold KubectlV30Layer.new. apply Creates_bind. intros _. apply GrowsTree_ret. }
  unfold bind at 1. unfold createEKSCluster.
  rewrite (inScope_refuses "KubectlLayer"); [reflexivity| |assumption].
  unfold KubectlV30Layer.new. apply Refuses_bind.
Qed.

Lemma rerun_createPrometheusWorkspace (st st' : Stack) :
  (w <- createPrometheusWorkspace ;; set_prometheusWorkspace w) st = Ok (tt, st') ->
  (w <- createPrometheusWorkspace ;; set_prometheusWorkspace w) st'
  = Err (DuplicateConstruct "PrometheusWorkspace").
Proof.
  intros H.
  assert (Hp : hasPath "PrometheusWorkspace" (node st') = true).
  { apply bind_Ok in H. destruct H as (w & s1 & H1 & H2).
    apply set_field_node in H2. rewrite H2.
    unfold createPrometheusWorkspace in H1.
    apply (inScope_creates "PrometheusWorkspace") in H1; [exact H1| |intros; grows].
    unfold CfnWorkspace.new. apply Creates_bind. intros _. apply GrowsTree_ret. }
  unfold bind at 1. unfold createPrometheusWorkspace.
  rewrite (inScope_refuses "PrometheusWorkspace"); [reflexivity| |assumption].
  unfold CfnWorkspace.new. apply Refuses_bind.
Qed.

Lemma rerun_createPromehtheusScraper (configBlob : string) (st st' : Stack) :
  (s <- createPromehtheusScraper configBlob ;; set_prometheusScraper s) st
  = Ok (tt, st') ->
  (s <- createPromehtheusScraper configBlob ;; set_prometheusScraper s) st'
  = Err (DuplicateConstruct "PrometheusScraper").
Proof.
  intros H.
  apply bind_Ok in H. destruct H as (s & s1 & H1 & H2).
  apply set_field_node in H2. destruct H2 as (Hn & Hv & Hc & Hw).
  destruct (methods_keep_fields configBlob) as (_ & _ & _ & Hkeep & _).
  destruct (Hkeep _ _ _ H1) as (Kv & Kc & Kw & _).
  unfold createPromehtheusScraper in H1.
  apply bind_Ok in H1. destruct H1 as (v & s2 & R1 & H1).
  apply this_Ok in R1. destruct R1 as [Fv ->].
  apply bind_Ok in H1. destruct H1 as (selected & s2 & R0 & H1).
  apply lift_Ok in R0. destruct R0 as [Fs ->]. cbv zeta in H1.
  apply bind_Ok in H1. destruct H1 as (w & s2 & R2 & H1).
  apply this_Ok in R2. destruct R2 as [Fw ->].
  apply bind_Ok in H1. destruct H1 as (c & s2 & R3 & H1).
  apply this_Ok in R3. destruct R3 as [Fc ->].
  apply (inScope_creates "PrometheusScraper") in H1;
    [| unfold CfnScraper.new; apply Creates_bind; intros _; apply GrowsTree_ret
     | intros; grows ].
  unfold bind at 1. unfold createPromehtheusScraper.
  rewrite (this_Some _ _ _ _ v) by congruence.
  rewrite (lift_Some _ _ _ selected) by assumption. cbv zeta.
  rewrite (this_Some _ _ _ _ w) by congruence.
  rewrite (this_Some _ _ _ _ c) by congruence.
  rewrite (inScope_refuses "PrometheusScraper"); [reflexivity| |congruence].
  unfold CfnScraper.new. apply Refuses_bind.
Qed.

Lemma rerun_createPrometheusScraperRoleBinding (st st' : Stack) :
  createPrometheusScraperRoleBinding st = Ok (tt, st') ->
  exists c,
    cluster st = Some c
    /\ createPrometheusScraperRoleBinding st'
       = Err (DuplicateConstruct
                (Eks.clusterPath c ++ "/manifest-ApsCollectorClusterRole")).
Proof.
  intros H.
  destruct (methods_keep_fields "") as (_ & _ & _ & _ & Hkeep & _).
  destruct (Hkeep _ _ _ H) as (_ & Kc & _ & _).
  unfold createPrometheusScraperRoleBinding in H.
  apply bind_Ok in H. destruct H as (c & s2 & R1 & H).
  apply this_Ok in R1. destruct R1 as [Fc ->].
  exists c. split; [assumption|].
  apply (inScope_creates
           (Eks.clusterPath c ++ "/manifest-ApsCollectorClusterRole")) in H;
    [| unfold Cluster.addManifest; apply Creates_addChild
     | intros; cbv zeta; grows ].
  unfold createPrometheusScraperRoleBinding.
  rewrite (this_Some _ _ _ _ c) by congruence.
  rewrite (inScope_refuses
             (Eks.clusterPath c ++ "/manifest-ApsCollectorClusterRole"));
    [reflexivity| |assumption].
  unfold Cluster.addManifest. apply Refuses_addChild.
Qed.

Lemma rerun_createGrafanaWorkspace (st st' : Stack) :
  createGrafanaWorkspace st = Ok (tt, st') ->
  createGrafanaWorkspace st' = Err (DuplicateConstruct "GrafanaRole").
Proof.
  intros H. unfold createGrafanaWorkspace in *.
  apply (inScope_creates "GrafanaRole") in H;
    [| unfold Role.new; apply Creates_bind; intros _; apply GrowsTree_ret
     | intros; grows ].
  rewrite (inScope_refuses "GrafanaRole"); [reflexivity| |assumption].
  unfold Role.new. apply Refuses_bind.
Qed.

(** X12.  No statement of the constructor can run twice on a stack: after a
    statement has returned, the same statement run on the resulting stack
    throws, because the path of the first construct it creates is taken. *)
Theorem constructor_statement_rerun_throws (configBlob : string)
    (stmt : St Stack unit) (st st' : Stack) :
  In stmt (constructor_body configBlob) ->
  stmt st = Ok (tt, st') ->
  exists path, stmt st' = Err (DuplicateConstruct path).
Proof.
  intros Hin H. simpl in Hin.
  destruct Hin as [<-|[<-|[<-|[<-|[<-|[<-|[]]]]]]].
  - eexists. apply rerun_createVPC in H. exact H.
  - eexists. apply rerun_createEKSCluster in H. exact H.
  - eexists. apply rerun_createPrometheusWorkspace in H. exact H.
  - eexists. apply rerun_createPromehtheusScraper in H. exact H.
  - apply rerun_createPrometheusScraperRoleBinding in H.
    destruct H as (c & _ & H). eexists. exact H.
  - eexists. apply rerun_createGrafanaWorkspace in H. exact H.
Qed.

Lemma constructor_statement_rerun_throws_witness :
  exists st',
    createGrafanaWorkspace (Stack_new exampleApp "AmpAndGrafanaStack" (Some mainProps))
    = Ok (tt, st')
    /\ exists path, createGrafanaWorkspace st' = Err (DuplicateConstruct path).
Proof.
  eexists. split; [vm_compute; reflexivity|].
  apply (constructor_statement_rerun_throws exampleBlob createGrafanaWorkspace
           (Stack_new exampleApp "AmpAndGrafanaStack" (Some mainProps))).
  - do 5 right. left. reflexivity.
  - vm_compute. reflexivity.
Defined.

(* ------------------------------------------------------------------ *)
(** ** The scraper and the role binding on any stack *)

(** X13.  The scraper method returns exactly when the network, the metrics
    workspace and the cluster have been assigned, the network has a private
    subnet with egress, and no construct is called PrometheusScraper; on a
    network without such a subnet the selection throws.  When it returns it
    has added that one construct after the others, with the private subnets
    of the assigned network, the ARNs of the assigned workspace and cluster,
    and the given configuration. *)
Theorem scraper_method_contract (configBlob : string) (st : Stack) :
  ((exists s st', createPromehtheusScraper configBlob st = Ok (s, st'))
   <-> ((exists v, vpc st = Some v /\ Ec2.privateSubnets v <> [])
        /\ prometheusWorkspace st <> None /\ cluster st <> None
        /\ hasPath "PrometheusScraper" (node st) = false))
  /\ (forall v,
        vpc st = Some v -> Ec2.privateSubnets v = [] ->
        createPromehtheusScraper configBlob st = Err (NoSubnetGroups "Private"))
  /\ forall s st',
       createPromehtheusScraper configBlob st = Ok (s, st') ->
       exists v w c,
         vpc st = Some v /\ prometheusWorkspace st = Some w /\ cluster st = Some c
         /\ Aps.attrRoleArn s = GetAtt "PrometheusScraper" "RoleArn"
         /\ node st'
            = (node st
               ++ [ ("PrometheusScraper",
                     ApsScraper
                       {| Aps.destination :=
                            {| Aps.ampConfiguration :=
                                 {| Aps.workspaceArn := Aps.attrArn w |} |};
                          Aps.scrapeConfiguration :=
                            {| Aps.configurationBlob := configBlob |};
                          Aps.source :=
                            {| Aps.eksConfiguration :=
                                 {| Aps.clusterArn := Eks.clusterArn c;
                                    Aps.subnetIds :=
                                      map Ec2.subnetId (Ec2.privateSubnets v) |} |} |}) ])%list.
Proof.
  unfold createPromehtheusScraper, bind, this, lift, inScope, CfnScraper.new, bind,
    addChild, ret.
  destruct (vpc st) as [v|];
    [ rewrite selectSubnets_by_type; cbn [Ec2.subnetsOfType];
      destruct (Ec2.privateSubnets v) as [|subnet others] eqn:Hsubnets | ];
    destruct (prometheusWorkspace st) as [w|], (cluster st) as [c|],
      (hasPath "PrometheusScraper" (node st)) eqn:Hfree;
    (split;
     [ split;
       [ intros (s & st' & H); try discriminate H;
         (split; [eexists; split; [reflexivity | rewrite Hsubnets; discriminate]|]);
         repeat split; discriminate
       | intros ((v' & Hv & Hsome) & H2 & H3 & H4);
         try discriminate Hv; try (injection Hv as <-);
         try congruence; eauto ]
     | split;
       [ intros v' Hv Hnone; try discriminate Hv; try (injection Hv as <-);
         try congruence; reflexivity
       | intros s st' H; try discriminate H ] ]).
  injection H as <- <-. exists v, w, c. rewrite Hsubnets. repeat split; reflexivity.
Qed.

Lemma scraper_method_contract_witness :
  createPromehtheusScraper exampleBlob
    (Stack_new exampleApp "AmpAndGrafanaStack" (Some mainProps))
  = Err (UndefinedField "vpc")
  /\ exists s st', createPromehtheusScraper exampleBlob exampleStackBeforeScraper
                    = Ok (s, st').
Proof.
  split; [reflexivity|].
  destruct (scraper_method_contract exampleBlob exampleStackBeforeScraper)
    as [[_ Hreturns] _].
  apply Hreturns.
  split; [eexists; split; [reflexivity | discriminate]|].
  repeat split; discriminate.
Defined.

Lemma find_app_Some (path : string) (t t' : Tree) (r : Resource) :
  find path t = Some r -> find path (t ++ t')%list = Some r.
Proof.
  induction t as [|[p x] t IH]; simpl; [discriminate|].
  destruct (String.eqb p path); [tauto | assumption].
Qed.

Lemma find_app_None (path : string) (t t' : Tree) :
  find path t = None -> find path (t ++ t')%list = find path t'.
Proof.
  induction t as [|[p x] t IH]; simpl; [reflexivity|].
  destruct (String.eqb p path); [discriminate | assumption].
Qed.

Lemma find_pushRoleMapping (path : string) (entry : Iam.IRole * Eks.AwsAuthMapping)
    (t : Tree) (cn : Str) (ms : list (Iam.IRole * Eks.AwsAuthMapping)) :
  find path t = Some (AwsAuth cn ms) ->
  find path (Cluster.pushRoleMapping path entry t)
  = Some (AwsAuth cn (ms ++ [entry])).
Proof.
  induction t as [|[p x] t IH]; simpl; [discriminate|].
  destruct (String.eqb p path) eqn:E.
  - intros [= ->]. simpl. now rewrite E.
  - intros H. simpl. rewrite E. now apply IH.
Qed.

Lemma awsAuth_path_fresh (c x : string) :
  String.eqb (c ++ String "/" (String "m" x)) (c ++ "/AwsAuth") = false
  /\ String.eqb "EKSScraperRole" (c ++ "/AwsAuth") = false.
Proof.
  split; apply String.eqb_neq; intros H.
  - apply append_inj_l in H. discriminate H.
  - assert (L : Js.lacks "/" (c ++ "/AwsAuth") = true) by now rewrite <- H.
    rewrite lacks_app in L. simpl in L. now rewrite andb_false_r in L.
Qed.

(** X14.  The role binding adds its identity mapping to the mappings the
    cluster already has: the mappings after the call are the earlier ones,
    unchanged and in order, followed by one entry that maps the role derived
    from the assigned scraper's role ARN to aps-collector-user in
    system:masters. *)
Theorem role_binding_appends_mapping (st st' : Stack) (c : Eks.Cluster) :
  cluster st = Some c ->
  createPrometheusScraperRoleBinding st = Ok (tt, st') ->
  exists s,
    prometheusScraper st = Some s
    /\ find (Eks.clusterPath c ++ "/AwsAuth") (node st')
       = Some (AwsAuth
                 match find (Eks.clusterPath c ++ "/AwsAuth") (node st) with
                 | Some (AwsAuth cn _) => cn
                 | _ => Eks.clusterName c
                 end
                 (match find (Eks.clusterPath c ++ "/AwsAuth") (node st) with
                  | Some (AwsAuth _ ms) => ms
                  | _ => []
                  end
                  ++ [ ({| Iam.roleArn := modifiedArn (Aps.attrRoleArn s) |},
                        {| Eks.username := "aps-collector-user";
                           Eks.groups := [ "system:masters" ] |}) ])%list).
Proof.
  intros Hc H. unfold createPrometheusScraperRoleBinding in H.
  rewrite (this_Some _ _ _ _ c Hc) in H.
  apply bind_Ok in H. destruct H as (u1 & s1 & H1 & H).
  apply inScope_Ok in H1. destruct H1 as (t1 & H1 & ->).
  apply addChild_Ok in H1. destruct H1 as [_ ->].
  apply bind_Ok in H. destruct H as (u2 & s2 & H2 & H).
  apply inScope_Ok in H2. destruct H2 as (t2 & H2 & ->).
  apply addChild_Ok in H2. destruct H2 as [_ ->].
  apply bind_Ok in H. destruct H as (s & s3 & H3 & H).
  apply this_Ok in H3. destruct H3 as [Hs ->]. simpl in Hs.
  exists s. split; [assumption|].
  apply bind_Ok in H. destruct H as (role & s4 & H4 & H).
  apply inScope_Ok in H4. destruct H4 as (t4 & H4 & ->).
  unfold Role.fromRoleArn in H4.
  apply bind_Ok in H4. destruct H4 as (u4 & t4' & H4 & Hret).
  apply addChild_Ok in H4. destruct H4 as [_ ->].
  injection Hret as <- <-.
  cbv zeta in H. apply inScope_Ok in H. destruct H as (t5 & H & ->).
  simpl in H |- *.
  destruct (awsAuth_path_fresh (Eks.clusterPath c) "anifest-ApsCollectorClusterRole")
    as [F1 F3].
  destruct (awsAuth_path_fresh (Eks.clusterPath c)
              "anifest-ApsCollectorClusterRoleBinding") as [F2 _].
  unfold Cluster.awsAuth_addRoleMapping in H.
  destruct (find (Eks.clusterPath c ++ "/AwsAuth") (node st)) as [r|] eqn:E.
  - rewrite (find_app_Some _ _ _ r) in H
      by (apply find_app_Some; apply find_app_Some; assumption).
    destruct r; try discriminate H.
    injection H as <-. apply find_pushRoleMapping.
    apply find_app_Some; apply find_app_Some; apply find_app_Some; assumption.
  - set (path := Eks.clusterPath c ++ "/AwsAuth") in *.
    match type of H with
    | context [ find path (((?t0 ++ ?a1) ++ ?a2) ++ ?a3)%list ] =>
        assert (N1 : find path (t0 ++ a1)%list = None)
          by (rewrite find_app_None by assumption; cbn [find]; now rewrite F1);
        assert (N2 : find path ((t0 ++ a1) ++ a2)%list = None)
          by (rewrite find_app_None by exact N1; cbn [find]; now rewrite F2);
        assert (N3 : find path (((t0 ++ a1) ++ a2) ++ a3)%list = None)
          by (rewrite find_app_None by exact N2; cbn [find]; now rewrite F3)
    end.
    rewrite N3 in H. apply addChild_Ok in H. destruct H as [_ ->].
    rewrite find_app_None by exact N3. cbn [find].
    now rewrite String.eqb_refl.
Qed.

Lemma role_binding_appends_mapping_witness :
  exists st',
    createPrometheusScraperRoleBinding exampleStackWithNodeMapping = Ok (tt, st')
    /\ find "Cluster/AwsAuth" (node st')
       = Some (AwsAuth (Ref "Cluster")
                 [ ({| Iam.roleArn :=
                         GetAtt "Cluster/NodegroupDefaultCapacity/NodeGroupRole" "Arn" |},
                    Eks.nodeMapping);
                   ({| Iam.roleArn :=
                         GetAtt "Cluster/NodegroupManagedNodeGroup/NodeGroupRole" "Arn" |},
                    Eks.nodeMapping);
                   ({| Iam.roleArn :=
                         modifiedArn (GetAtt "PrometheusScraper" "RoleArn") |},
                    {| Eks.username := "aps-collector-user";
                       Eks.groups := [ "system:masters" ] |}) ]).
Proof.
  assert (Hrun : exists st',
             createPrometheusScraperRoleBinding exampleStackWithNodeMapping
             = Ok (tt, st'))
    by (eexists; vm_compute; reflexivity).
  destruct Hrun as [st' H]. exists st'. split; [exact H|].
  assert (Hc : exists c, cluster exampleStackWithNodeMapping = Some c)
    by (eexists; reflexivity).
  destruct Hc as [c Hc].
  destruct (role_binding_appends_mapping _ _ _ Hc H) as (s & Hs & Hfind).
  vm_compute in Hc. injection Hc as <-.
  vm_compute in Hs. injection Hs as <-.
  exact Hfind.
Defined.

(* ------------------------------------------------------------------ *)
(** ** What the manifests grant *)

(** X15.  Through the collector role and its binding, role-based access
    control grants the user aps-collector-user the verbs describe, get, list
    and watch on the listed resources of the core API group and on
    ingresses and their status in the groups extensions and
    networking.k8s.io, and the verb get on the URL [/metrics]; it grants
    nothing else to anybody: no other user, verb, group, resource or URL. *)
Theorem rbac_grants_exactly (user : string) (request : K8s.Request) :
  K8s.rbacAllows [ clusterRoleManifest ] [ clusterRoleBindingManifest ]
    user request = true
  <-> user = "aps-collector-user"
      /\ match request with
         | K8s.ResourceRequest verb apiGroup resource subresource _ =>
             In verb [ "describe"; "get"; "list"; "watch" ]
             /\ (In apiGroup [ "" ]
                 /\ In (K8s.combined resource subresource)
                       [ "nodes"; "nodes/proxy"; "nodes/metrics"; "services";
                         "endpoints"; "pods"; "ingresses"; "configmaps" ]
                 \/ In apiGroup [ "extensions"; "networking.k8s.io" ]
                    /\ In (K8s.combined resource subresource)
                          [ "ingresses/status"; "ingresses" ])
         | K8s.NonResourceRequest verb url =>
             In verb [ "get" ] /\ In url [ "/metrics" ]
         end.
Proof.
  rewrite rbacAllows_collector.
  split; intros [Huser Hrole];
    (split; [exact Huser|]);
    apply roleAllows_collector; exact Hrole.
Qed.

(** The grant of the third rule, and the limits of the first two. *)
Example rbac_metrics_url :
  K8s.rbacAllows [ clusterRoleManifest ] [ clusterRoleBindingManifest ]
    "aps-collector-user" (K8s.NonResourceRequest "get" "/metrics") = true
  /\ K8s.rbacAllows [ clusterRoleManifest ] [ clusterRoleBindingManifest ]
       "aps-collector-user" (K8s.NonResourceRequest "get" "/healthz") = false
  /\ K8s.rbacAllows [ clusterRoleManifest ] [ clusterRoleBindingManifest ]
       "aps-collector-user"
       (K8s.ResourceRequest "get" "networking.k8s.io" "ingresses" "status" "")
     = true
  /\ K8s.rbacAllows [ clusterRoleManifest ] [ clusterRoleBindingManifest ]
       "aps-collector-user"
       (K8s.ResourceRequest "get" "" "ingresses" "status" "")
     = false
  /\ K8s.rbacAllows [ clusterRoleManifest ] [ clusterRoleBindingManifest ]
       "aps-collector-user"
       (K8s.ResourceRequest "get" "networking.k8s.io" "pods" "" "")
     = false.
Proof. repeat split; reflexivity. Qed.
